(** * Sales dashboard: the filter / aggregate / export pipeline of [app/app.py]

    A shallow embedding of the data pipeline of the Streamlit sales
    dashboard.  The script works on pandas objects; here a [DataFrame] is the
    list of its rows in index order, a [Series] the list of its values, and
    every pandas operation the script calls is written out as a function on
    these lists.

    Numbers.  The [Sales] column is modelled with exact rationals ([Q]); sums
    are exact, so rounding of binary floating point is outside this model.
    The special values a numpy scalar can take ([nan], [inf]) are kept in the
    type [Np.value], because the script guards its two divisions against
    them.  Where rounding decides a statement, the two sums concerned are
    modelled a second time on [float64] values (module [F64]).

    Data.  The pipeline of lines 73-147 is modelled on fully populated
    records (the data model of the cleaned data set: text keys, a number for
    [Sales]); only the order date may be missing ([NaT]).  The loader of
    lines 18-23 is modelled one level below, on the columns of text of the
    file. *)

From Stdlib Require Import ZArith QArith Bool List String Ascii Lia.
From Stdlib Require Import Permutation Sorted OrderedTypeEx PrimFloat.
Import ListNotations.

Local Open Scope Z_scope.

(** * Part I: the program *)

(** ** Exceptions *)

Inductive exn : Type :=
| IndexError
| KeyError
| ValueError
| AttributeError.

Inductive result (A : Type) : Type :=
| Ok (a : A)
| Raise (e : exn).

Arguments Ok {A} a.
Arguments Raise {A} e.

Definition bind {A B : Type} (c : result A) (k : A -> result B) : result B :=
  match c with
  | Ok a => k a
  | Raise e => Raise e
  end.

Notation "x <- c ;; k" := (bind c (fun x => k))
  (at level 61, c at next level, right associativity).

(** ** numpy scalars *)

Module Np.

(** A numpy float scalar: a finite number, [nan], or a signed infinity. *)
Inductive value : Type :=
| Num (q : Q)
| NaN
| Inf (negative : bool).

(** [np.nan] *)
Definition nan : value := NaN.

(** [np.isnan] *)
Definition isnan (v : value) : bool :=
  match v with NaN => true | _ => false end.

(** [a == 0] on a finite number. *)
Definition is_zero (a : Q) : bool := Qnum a =? 0.

(** [a / b] on numpy scalars with a finite numerator and denominator:
    dividing by zero does not raise, it gives [nan] (for 0/0) or an
    infinity of the numerator's sign. *)
Definition truediv (a b : Q) : value :=
  if is_zero b then
    if is_zero a then NaN else Inf (Qnum a <? 0)
  else Num (a / b)%Q.

(** [v * c] for a finite [c]. *)
Definition mul (v : value) (c : Q) : value :=
  match v with
  | Num a => Num (a * c)%Q
  | NaN => NaN
  | Inf s => if is_zero c then NaN else Inf (xorb s (Qnum c <? 0))
  end.

End Np.

(** ** The table *)

(** A [datetime64[ns]] cell: nanoseconds since the epoch, or [NaT]. *)
Inductive datetime : Type :=
| NaT
| Ts (ns : Z).

(** One transaction record, with the columns the script reads. *)
Record Row : Type := mkRow {
  OrderID : string;
  OrderDate : datetime;
  Product : string;
  Category : string;
  Region : string;
  Sales : Q;
  order_month : string
}.

Definition DataFrame : Type := list Row.
Definition Series (A : Type) : Type := list A.

(** A Series of numbers indexed by text keys, as a group-by returns it. *)
Definition Indexed : Type := list (string * Q).

(** ** pandas operations used by the script *)

Module Pd.

(** [df[c]]: the column as a Series, in index order. *)
Definition col {A : Type} (c : Row -> A) (t : DataFrame) : Series A :=
  map c t.

(** [s >= t] against a Timestamp; any comparison with [NaT] is False. *)
Definition ge (s : Series datetime) (t : Z) : Series bool :=
  map (fun d => match d with NaT => false | Ts x => t <=? x end) s.

(** [s <= t] against a Timestamp. *)
Definition le (s : Series datetime) (t : Z) : Series bool :=
  map (fun d => match d with NaT => false | Ts x => x <=? t end) s.

(** [s.isin(values)] *)
Definition isin (s : Series string) (values : list string) : Series bool :=
  map (fun x => existsb (String.eqb x) values) s.

(** [a & b] on boolean Series of one index. *)
Definition and_ (a b : Series bool) : Series bool :=
  map (fun p => fst p && snd p) (combine a b).

(** [df.loc[mask]]: the rows whose mask entry is True, in index order. *)
Definition loc (t : DataFrame) (m : Series bool) : DataFrame :=
  map fst (filter snd (combine t m)).

(** [df.copy()]: a new frame with the same rows. *)
Definition copy (t : DataFrame) : DataFrame := t.

(** [pd.to_datetime(d)] of a calendar date given as days since the epoch:
    the Timestamp of its midnight. *)
Definition to_datetime (days : Z) : Z := days * 86400000000000.

(** [s.sum()]: the values added from the first to the last, 0 when there
    is none. *)
Definition sum (s : Series Q) : Q := fold_left Qplus s 0%Q.

(** [s.unique()]: the distinct values in order of first appearance. *)
Fixpoint unique (s : Series string) : list string :=
  match s with
  | [] => []
  | x :: s' => x :: filter (fun y => negb (String.eqb x y)) (unique s')
  end.

(** [s.nunique()] *)
Definition nunique (s : Series string) : Z := Z.of_nat (List.length (unique s)).

(** Insertion into an ascending list; [x] goes before the first element
    it is not above. *)
Fixpoint insert {A : Type} (le : A -> A -> bool) (x : A) (l : list A)
  : list A :=
  match l with
  | [] => [x]
  | y :: l' => if le x y then x :: l else y :: insert le x l'
  end.

(** A stable ascending sort. *)
Fixpoint sort {A : Type} (le : A -> A -> bool) (l : list A) : list A :=
  match l with
  | [] => []
  | x :: l' => insert le x (sort le l')
  end.

(** The group keys of [df.groupby(c)] (with the default [sort=True]): the
    distinct values of the column in ascending order. *)
Definition group_keys (s : Series string) : list string :=
  sort String.leb (unique s).

(** The rows of one group, in index order. *)
Definition group (key : Row -> string) (k : string) (t : DataFrame)
  : DataFrame :=
  filter (fun r => String.eqb (key r) k) t.

(** [df.groupby(c)["Sales"].sum()]: one entry per group key, in ascending
    order of the key, holding the sum of [Sales] over the group. *)
Definition groupby_sum (key : Row -> string) (t : DataFrame) : Indexed :=
  map (fun k => (k, sum (col Sales (group key k t))))
      (group_keys (col key t)).

(** [s.sort_index()] *)
Definition sort_index (s : Indexed) : Indexed :=
  sort (fun a b => String.leb (fst a) (fst b)) s.

(** [s.head(n)] *)
Definition head {A : Type} (n : nat) (s : list A) : list A := firstn n s.

(** [s.reset_index()]: the index becomes the first of two columns; the
    entries and their order stay. *)
Definition reset_index (s : Indexed) : Indexed := s.

(** [s.iloc[-k]] for [k >= 1]: the k-th value from the end; out of range
    it raises [IndexError]. *)
Definition iloc_neg (s : Indexed) (k : nat) : result Q :=
  if (k <=? List.length s)%nat
  then match nth_error s (List.length s - k) with
       | Some p => Ok (snd p)
       | None => Raise IndexError
       end
  else Raise IndexError.

(** What [s.sort_values(ascending=False)] promises with the default
    [kind="quicksort"]: the same entries, in descending order of the
    values.  Only [kind="mergesort"] and [kind="stable"] promise more,
    the relative order of equal values. *)
Definition Descending (s : Indexed) : Prop :=
  StronglySorted (fun a b => (snd b <= snd a)%Q) s.

Record sorts_values_descending (srt : Indexed -> Indexed) : Prop := {
  sv_perm : forall s, Permutation (srt s) s;
  sv_desc : forall s, Descending (srt s)
}.

(** A sort that keeps this promise: what [kind="stable"] does for a
    descending sort, equal values stay in their input order. *)
Definition sort_values_stable (s : Indexed) : Indexed :=
  sort (fun a b => Qle_bool (snd b) (snd a)) s.

End Pd.

(** ** Filter state and the filter step (lines 73-82) *)

Record FilterState : Type := mkFilter {
  start : Z;
  end_ : Z;
  regions : list string;
  categories : list string
}.

(** The boolean mask of lines 75-80. *)
Definition mask (t : DataFrame) (fs : FilterState) : Series bool :=
  Pd.and_
    (Pd.and_
       (Pd.and_ (Pd.ge (Pd.col OrderDate t) (start fs))
                (Pd.le (Pd.col OrderDate t) (end_ fs)))
       (Pd.isin (Pd.col Region t) (regions fs)))
    (Pd.isin (Pd.col Category t) (categories fs)).

(** Line 82: [df_f = df.loc[mask].copy()]. *)
Definition filter_view (t : DataFrame) (fs : FilterState) : DataFrame :=
  Pd.copy (Pd.loc t (mask t fs)).

(** The two module-level frames of the script. *)
Record Globals : Type := mkGlobals {
  df : DataFrame;
  df_f : DataFrame
}.

(** Lines 73-82 as a step on the globals: only [df_f] is assigned. *)
Definition apply_filters (fs : FilterState) (g : Globals) : Globals :=
  {| df := df g; df_f := filter_view (df g) fs |}.

(** Line 73: the two ends of the date widget's value; indexing a value with
    fewer than two dates raises [IndexError]. *)
Definition date_bounds (date_range : list Z) : result (Z * Z) :=
  match date_range with
  | d0 :: d1 :: _ => Ok (Pd.to_datetime d0, Pd.to_datetime d1)
  | _ => Raise IndexError
  end.

(** ** KPI calculations (lines 86-97) *)

Definition total_revenue (view : DataFrame) : Q :=
  Pd.sum (Pd.col Sales view).

Definition total_orders (view : DataFrame) : Z :=
  Pd.nunique (Pd.col OrderID view).

(** Line 88: [total_revenue / total_orders if total_orders > 0 else 0]. *)
Definition avg_order_value (view : DataFrame) : Np.value :=
  if 0 <? total_orders view
  then Np.truediv (total_revenue view) (inject_Z (total_orders view))
  else Np.Num 0.

(** Line 90. *)
Definition monthly_sales (view : DataFrame) : Indexed :=
  Pd.sort_index (Pd.groupby_sum order_month view).

(** Lines 92-97, on the monthly series. *)
Definition mom_growth (series : Indexed) : result Np.value :=
  if (2 <=? List.length series)%nat then
    prev <- Pd.iloc_neg series 2 ;;
    if negb (Np.is_zero prev) then
      last <- Pd.iloc_neg series 1 ;;
      prev1 <- Pd.iloc_neg series 2 ;;
      prev2 <- Pd.iloc_neg series 2 ;;
      Ok (Np.mul (Np.truediv (last - prev1)%Q prev2) 100%Q)
    else Ok Np.nan
  else Ok Np.nan.

(** ** Top products (lines 118-124) and sales by region (line 139) *)

(** [sort_values] stands for [Series.sort_values(ascending=False)]. *)
Definition top_products (sort_values : Indexed -> Indexed)
    (view : DataFrame) : Indexed :=
  Pd.reset_index (Pd.head 5 (sort_values (Pd.groupby_sum Product view))).

Definition region_sales (view : DataFrame) : Indexed :=
  Pd.groupby_sum Region view.

(** ** Excel export (lines 29-43) *)

Module Xl.

Inductive cell : Type :=
| Text (s : string)
| Number (q : Q)
| Date (d : datetime).

Record Sheet : Type := mkSheet {
  sheet_name : string;
  header : list string;
  body : list (list cell)
}.

(** The content of a workbook: its sheets in the order they were written.
    The bytes that xlsxwriter makes of it are not modelled. *)
Definition Workbook : Type := list Sheet.

(** Code that writes to the open [pd.ExcelWriter]. *)
Definition Writer (A : Type) : Type := Workbook -> A * Workbook.

Definition seq {A B : Type} (c : Writer A) (k : Writer B) : Writer B :=
  fun wb => k (snd (c wb)).

(** Writing a sheet appends it to the workbook. *)
Definition add_sheet (sh : Sheet) : Writer unit :=
  fun wb => (tt, wb ++ [sh]).

(** [with pd.ExcelWriter(buffer) as writer: body] followed by
    [buffer.getvalue()]: the workbook the body has written. *)
Definition with_writer {A : Type} (c : Writer A) : Workbook := snd (c []).

End Xl.

Notation "c1 >> c2" := (Xl.seq c1 c2) (at level 62, right associativity).

(** The columns of the frame, in the order of the file. *)
Definition frame_columns : list string :=
  ["Order ID"; "Order Date"; "Product"; "Category"; "Region"; "Sales";
   "order_month"]%string.

Definition row_cells (r : Row) : list Xl.cell :=
  [Xl.Text (OrderID r); Xl.Date (OrderDate r); Xl.Text (Product r);
   Xl.Text (Category r); Xl.Text (Region r); Xl.Number (Sales r);
   Xl.Text (order_month r)].

Definition entry_cells (e : string * Q) : list Xl.cell :=
  [Xl.Text (fst e); Xl.Number (snd e)].

(** [df.to_excel(writer, sheet_name=name, index=False)] on the frame. *)
Definition frame_to_excel (t : DataFrame) (name : string) : Xl.Writer unit :=
  Xl.add_sheet (Xl.mkSheet name frame_columns (map row_cells t)).

(** [s.reset_index().to_excel(writer, sheet_name=name, index=False)] on a
    group-by result: the key column, named after the grouping column, and
    the [Sales] column. *)
Definition rollup_to_excel (key_name : string) (s : Indexed) (name : string)
  : Xl.Writer unit :=
  Xl.add_sheet
    (Xl.mkSheet name [key_name; "Sales"%string]
                (map entry_cells (Pd.reset_index s))).

(** The workbook of lines 29-43 when each of the four frames fits its
    sheet.  The refusal of a frame that does not is in [excel_data]. *)
Definition to_excel_bytes (t : DataFrame) : Xl.Workbook :=
  Xl.with_writer
    (frame_to_excel t "raw_data" >>
     rollup_to_excel "Product" (Pd.groupby_sum Product t) "product_sales" >>
     rollup_to_excel "Category" (Pd.groupby_sum Category t) "category_sales" >>
     rollup_to_excel "Region" (Pd.groupby_sum Region t) "region_sales").

(** The rows of an Excel sheet. *)
Definition max_rows : Z := 1048576.

(** [to_excel] with the size of a sheet taken into account.  A frame of
    more than [max_rows] rows is refused with [ValueError].  The header
    takes the first row of the sheet, so of a frame of exactly [max_rows]
    rows the last one falls below the sheet and is not written. *)
Definition write_sheet (name : string) (header : list string)
    (rows : list (list Xl.cell)) : result Xl.Sheet :=
  if max_rows <? Z.of_nat (List.length rows) then Raise ValueError
  else if Z.of_nat (List.length rows) =? max_rows
       then Ok (Xl.mkSheet name header (removelast rows))
       else Ok (Xl.mkSheet name header rows).

(** Line 147: [excel_data = to_excel_bytes(df_f)], the four [to_excel]
    calls in their order; the first one that raises ends the export. *)
Definition excel_data (t : DataFrame) : result Xl.Workbook :=
  raw <- write_sheet "raw_data" frame_columns (map row_cells t) ;;
  product <- write_sheet "product_sales" ["Product"; "Sales"]%string
               (map entry_cells
                    (Pd.reset_index (Pd.groupby_sum Product t))) ;;
  category <- write_sheet "category_sales" ["Category"; "Sales"]%string
                (map entry_cells
                     (Pd.reset_index (Pd.groupby_sum Category t))) ;;
  region <- write_sheet "region_sales" ["Region"; "Sales"]%string
              (map entry_cells
                   (Pd.reset_index (Pd.groupby_sum Region t))) ;;
  Ok [raw; product; category; region].

(** ** The two totals on [float64] values *)

Module F64.

(** The Region and Sales columns of a view whose Sales are [float64]. *)
Definition View : Type := list (string * float).

(** [s.sum()] on a Series of fewer than 8 values: numpy adds them in
    index order.  Longer Series are added in blocks; they are not
    modelled ([None]). *)
Definition sum (s : list float) : option float :=
  if (List.length s <? 8)%nat
  then Some (fold_left PrimFloat.add s 0%float)
  else None.

(** One step of the compensated (Kahan) summation by which
    [groupby(...).sum()] adds the values of a group. *)
Definition kahan_step (st : float * float) (v : float) : float * float :=
  let y := PrimFloat.sub v (snd st) in
  let t := PrimFloat.add (fst st) y in
  (t, PrimFloat.sub (PrimFloat.sub t (fst st)) y).

Definition group_sum (s : list float) : float :=
  fst (fold_left kahan_step s (0%float, 0%float)).

(** Line 86 *)
Definition total_revenue (v : View) : option float := sum (map snd v).

(** Line 139 *)
Definition region_sales (v : View) : list (string * float) :=
  map (fun k =>
         (k, group_sum (map snd (filter (fun r => String.eqb (fst r) k) v))))
      (Pd.group_keys (map fst v)).

(** The sum of the values of the Region roll-up. *)
Definition rollup_total (v : View) : option float :=
  sum (map snd (region_sales v)).

End F64.

(** ** Sidebar widgets (lines 49-69) and the whole recomputation *)

(** [s.min()] and [s.max()] on a datetime Series: [NaT] cells are skipped,
    and the result is [NaT] when no cell holds a date. *)
Definition dt_min2 (a b : datetime) : datetime :=
  match a, b with
  | NaT, _ => b
  | _, NaT => a
  | Ts x, Ts y => Ts (Z.min x y)
  end.

Definition dt_max2 (a b : datetime) : datetime :=
  match a, b with
  | NaT, _ => b
  | _, NaT => a
  | Ts x, Ts y => Ts (Z.max x y)
  end.

Definition dt_min (s : Series datetime) : datetime := fold_right dt_min2 NaT s.
Definition dt_max (s : Series datetime) : datetime := fold_right dt_max2 NaT s.

(** [ts.date()]: the calendar day of a Timestamp, as days since the epoch.
    [NaT] has no calendar day ([None]): [NaT.date()] is [NaT] again, and on
    a table without rows [min()] is not even a datetime.  What the date
    widget makes of that is not modelled. *)
Definition ts_date (d : datetime) : option Z :=
  match d with
  | NaT => None
  | Ts ns => Some (ns / 86400000000000)
  end.

(** Lines 49-50. *)
Definition min_date (t : DataFrame) : option Z :=
  ts_date (dt_min (Pd.col OrderDate t)).

Definition max_date (t : DataFrame) : option Z :=
  ts_date (dt_max (Pd.col OrderDate t)).

(** [sorted(xs)] on text. *)
Definition sorted (xs : list string) : list string := Pd.sort String.leb xs.

(** Lines 61 and 67: the options offered by the two multiselects. *)
Definition region_options (t : DataFrame) : list string :=
  sorted (Pd.unique (Pd.col Region t)).

Definition category_options (t : DataFrame) : list string :=
  sorted (Pd.unique (Pd.col Category t)).

(** The values of the three sidebar widgets. *)
Record Widgets : Type := mkWidgets {
  date_range : list Z;
  sel_regions : list string;
  sel_categories : list string
}.

(** The values the widgets start with: [[min_date, max_date]] (line 54),
    [list(df["Region"].unique())] (line 62) and
    [list(df["Category"].unique())] (line 68); [None] when the table has no
    dated row. *)
Definition default_widgets (t : DataFrame) : option Widgets :=
  match min_date t, max_date t with
  | Some lo, Some hi =>
      Some {| date_range := [lo; hi];
              sel_regions := Pd.unique (Pd.col Region t);
              sel_categories := Pd.unique (Pd.col Category t) |}
  | _, _ => None
  end.

(** Line 73 with the two selections: the filter state of lines 75-80. *)
Definition filter_state (w : Widgets) : result FilterState :=
  b <- date_bounds (date_range w) ;;
  Ok {| start := fst b; end_ := snd b;
        regions := sel_regions w; categories := sel_categories w |}.

(** What one run of lines 73-147 computes from the loaded table and the
    widget values. *)
Record Dashboard : Type := mkDashboard {
  d_view : DataFrame;
  d_total_revenue : Q;
  d_total_orders : Z;
  d_avg_order_value : Np.value;
  d_monthly_sales : Indexed;
  d_mom_growth : Np.value;
  d_top_products : Indexed;
  d_region_sales : Indexed;
  d_excel : Xl.Workbook
}.

Definition dashboard (sort_values : Indexed -> Indexed) (t : DataFrame)
    (w : Widgets) : result Dashboard :=
  fs <- filter_state w ;;
  let view := filter_view t fs in
  growth <- mom_growth (monthly_sales view) ;;
  workbook <- excel_data view ;;
  Ok {| d_view := view;
        d_total_revenue := total_revenue view;
        d_total_orders := total_orders view;
        d_avg_order_value := avg_order_value view;
        d_monthly_sales := monthly_sales view;
        d_mom_growth := growth;
        d_top_products := top_products sort_values view;
        d_region_sales := region_sales view;
        d_excel := workbook |}.

(** Line 109: the growth metric shows "N/A" for [nan]. *)
Definition growth_not_available (v : Np.value) : bool := Np.isnan v.

(** ** Loading (lines 18-23) *)

Module Loader.

(** A column of a frame: a column of text ([object]); a column of
    [datetime64[ns]] values; or a column as [read_csv] makes it of the
    cells of the file, with the dtype it infers from them (int64, float64,
    bool or object), which is not modelled further. *)
Inductive column : Type :=
| ObjectCol (cells : list string)
| DatetimeCol (cells : list datetime)
| InferredCol (cells : list string).

Definition Frame : Type := list (string * column).

(** The file as [read_csv] sees it: per header name, the cells of that
    column as text, in row order. *)
Definition TextFile : Type := list (string * list string).

Definition height (c : column) : nat :=
  match c with
  | ObjectCol cells => List.length cells
  | InferredCol cells => List.length cells
  | DatetimeCol cells => List.length cells
  end.

(** [name in df.columns] *)
Definition has_column {A : Type} (name : string) (f : list (string * A))
  : bool :=
  existsb (fun c => String.eqb name (fst c)) f.

(** [df[name]] *)
Fixpoint getitem (f : Frame) (name : string) : result column :=
  match f with
  | [] => Raise KeyError
  | (n, c) :: f' => if String.eqb name n then Ok c else getitem f' name
  end.

(** [df[name] = c] for a name that is not yet a column. *)
Definition add_column (f : Frame) (name : string) (c : column) : Frame :=
  f ++ [(name, c)].

(** [s.dt]: only on datetime-like values. *)
Definition dt (c : column) : result (list datetime) :=
  match c with
  | DatetimeCol ds => Ok ds
  | ObjectCol _ => Raise AttributeError
  | InferredCol _ => Raise AttributeError
  end.

(** Calendar date of a day number (days since 1970-01-01), in the
    proleptic Gregorian calendar. *)
Definition civil_from_days (z0 : Z) : Z * Z * Z :=
  let z := z0 + 719468 in
  let era := z / 146097 in
  let doe := z - era * 146097 in
  let yoe := (doe - doe / 1460 + doe / 36524 - doe / 146096) / 365 in
  let doy := doe - (365 * yoe + yoe / 4 - yoe / 100) in
  let mp := (5 * doy + 2) / 153 in
  let d := doy - (153 * mp + 2) / 5 + 1 in
  let m := if mp <? 10 then mp + 3 else mp - 9 in
  let y := yoe + era * 400 in
  (if m <=? 2 then y + 1 else y, m, d).

Definition days_from_civil (y m d : Z) : Z :=
  let y' := if m <=? 2 then y - 1 else y in
  let era := y' / 400 in
  let yoe := y' - era * 400 in
  let doy := (153 * (if 2 <? m then m - 3 else m + 9) + 2) / 5 + d - 1 in
  let doe := yoe * 365 + yoe / 4 - yoe / 100 + doy in
  era * 146097 + doe - 719468.

Definition ns_per_day : Z := 86400000000000.

Definition digit (n : Z) : string :=
  String (ascii_of_nat (48 + Z.to_nat (n mod 10))) EmptyString.

Definition pad2 (n : Z) : string := (digit (n / 10) ++ digit n)%string.

Definition pad4 (n : Z) : string := (pad2 (n / 100) ++ pad2 n)%string.

(** [.dt.to_period("M").astype(str)] on one value. *)
Definition period_M_str (d : datetime) : string :=
  match d with
  | NaT => "NaT"%string
  | Ts ns =>
      let '(y, m, _) := civil_from_days (ns / ns_per_day) in
      (pad4 y ++ "-" ++ pad2 m)%string
  end.

Section WithDateParser.

(** The date parser of [read_csv]: the datetime a cell's text stands
    for ([NaT] for a missing value), or [None] when the text is not a
    date. *)
Variable parse : string -> option datetime.

Fixpoint parse_all (cells : list string) : option (list datetime) :=
  match cells with
  | [] => Some []
  | c :: cells' =>
      match parse c, parse_all cells' with
      | Some d, Some ds => Some (d :: ds)
      | _, _ => None
      end
  end.

(** The column named in [parse_dates]: a datetime column when it has
    cells and every cell parses; returned unaltered, as text, when some
    cell does not parse; an empty column of dtype object when the file has
    no rows. *)
Definition date_column (cells : list string) : column :=
  match cells with
  | [] => ObjectCol []
  | _ :: _ =>
      match parse_all cells with
      | Some ds => DatetimeCol ds
      | None => ObjectCol cells
      end
  end.

(** The dtype conversion of one column; the columns not named in
    [parse_dates] get the dtype [read_csv] infers. *)
Definition convert (parse_dates : string) (c : string * list string)
  : string * column :=
  (fst c,
   if String.eqb (fst c) parse_dates then date_column (snd c)
   else InferredCol (snd c)).

(** [pd.read_csv(path, parse_dates=[name])]; a name that is no column
    of the file raises [ValueError]. *)
Definition read_csv (file : TextFile) (parse_dates : string)
  : result Frame :=
  if has_column parse_dates file
  then Ok (map (convert parse_dates) file)
  else Raise ValueError.

Definition load_data (path : TextFile) : result Frame :=
  t <- read_csv path "Order Date" ;;
  if negb (has_column "order_month" t) then
    c <- getitem t "Order Date" ;;
    ds <- dt c ;;
    Ok (add_column t "order_month" (ObjectCol (map period_M_str ds)))
  else Ok t.

End WithDateParser.

(** A date parser for the examples: ISO dates [YYYY-MM-DD], and the empty
    field as a missing value. *)
Definition digit_value (c : ascii) : option Z :=
  let n := Z.of_nat (nat_of_ascii c) in
  if (48 <=? n) && (n <=? 57) then Some (n - 48) else None.

Fixpoint number (cs : list ascii) (acc : Z) : option Z :=
  match cs with
  | [] => Some acc
  | c :: cs' =>
      match digit_value c with
      | Some v => number cs' (10 * acc + v)
      | None => None
      end
  end.

Definition is_leap (y : Z) : bool :=
  ((y mod 4 =? 0) && negb (y mod 100 =? 0)) || (y mod 400 =? 0).

Definition days_in_month (y m : Z) : Z :=
  if m =? 2 then (if is_leap y then 29 else 28)
  else if (m =? 4) || (m =? 6) || (m =? 9) || (m =? 11) then 30
  else 31.

Definition iso_date (s : string) : option datetime :=
  match list_ascii_of_string s with
  | [] => Some NaT
  | [y1; y2; y3; y4; s1; m1; m2; s2; d1; d2] =>
      if Ascii.eqb s1 "-" && Ascii.eqb s2 "-" then
        match number [y1; y2; y3; y4] 0, number [m1; m2] 0,
              number [d1; d2] 0 with
        | Some y, Some m, Some d =>
            if (1 <=? m) && (m <=? 12) && (1 <=? d)
               && (d <=? days_in_month y m)
            then Some (Ts (days_from_civil y m d * ns_per_day))
            else None
        | _, _, _ => None
        end
      else None
  | _ => None
  end.

End Loader.

(** * Part II: vocabulary of the statements, example data *)

(** ** The four predicates of the filter, row by row *)

Definition on_or_after (d : datetime) (t : Z) : Prop :=
  match d with NaT => False | Ts x => t <= x end.

Definition on_or_before (d : datetime) (t : Z) : Prop :=
  match d with NaT => False | Ts x => x <= t end.

Definition satisfies (fs : FilterState) (r : Row) : Prop :=
  on_or_after (OrderDate r) (start fs) /\
  on_or_before (OrderDate r) (end_ fs) /\
  In (Region r) (regions fs) /\
  In (Category r) (categories fs).

Definition satisfiesb (fs : FilterState) (r : Row) : bool :=
  match OrderDate r with
  | NaT => false
  | Ts x => (start fs <=? x) && (x <=? end_ fs)
  end
  && existsb (String.eqb (Region r)) (regions fs)
  && existsb (String.eqb (Category r)) (categories fs).

(** [Selection P t v]: [v] is [t] with exactly the rows satisfying [P] kept,
    each as often as it occurs, in the order of [t]. *)
Inductive Selection (P : Row -> Prop) : DataFrame -> DataFrame -> Prop :=
| sel_nil : Selection P [] []
| sel_keep r t v : P r -> Selection P t v -> Selection P (r :: t) (r :: v)
| sel_drop r t v : ~ P r -> Selection P t v -> Selection P (r :: t) v.

(** ** Example data: the three records of the end-to-end scenario *)

Definition jan5 : Z := Loader.days_from_civil 2024 1 5.
Definition feb10 : Z := Loader.days_from_civil 2024 2 10.

Definition scenario : DataFrame :=
  [ mkRow "O1" (Ts (Pd.to_datetime jan5)) "WidgetA" "Cat1" "East" 100
          "2024-01";
    mkRow "O1" (Ts (Pd.to_datetime jan5)) "WidgetB" "Cat1" "East" 50
          "2024-01";
    mkRow "O2" (Ts (Pd.to_datetime feb10)) "WidgetA" "Cat1" "West" 200
          "2024-02" ].

Definition all_of_scenario : FilterState :=
  {| start := Pd.to_datetime jan5; end_ := Pd.to_datetime feb10;
     regions := ["East"; "West"]%string; categories := ["Cat1"%string] |}.

Definition backwards : FilterState :=
  {| start := Pd.to_datetime feb10; end_ := Pd.to_datetime jan5;
     regions := ["East"; "West"]%string; categories := ["Cat1"%string] |}.

(** ** Roll-up sheets *)

(** Strict ascending order of text keys (by character code). *)
Definition key_lt (a b : string) : Prop := String.ltb a b = true.

(** The sum of a list of numbers, written from the last to the first. *)
Fixpoint exact_sum (l : list Q) : Q :=
  match l with
  | [] => 0
  | x :: l' => x + exact_sum l'
  end.

(** [rollup_rows key view body]: the rows of [body] have two cells, a key
    and a number; the keys are the distinct values of [key] over the whole
    view, each once; the number next to a key is equal to the sum of
    [Sales] over the records of the view with that key. *)
Definition rollup_rows (key : Row -> string) (view : DataFrame)
    (body : list (list Xl.cell)) : Prop :=
  exists entries : Indexed,
    body = map (fun e => [Xl.Text (fst e); Xl.Number (snd e)]) entries /\
    NoDup (map fst entries) /\
    (forall k, In k (map fst entries) <-> exists r, In r view /\ key r = k) /\
    (forall k q, In (k, q) entries ->
       (q == exact_sum
               (map Sales
                    (filter (fun r => String.eqb (key r) k) view)))%Q).

(** A view of one record more than a sheet has rows. *)
Definition oversized_view : DataFrame :=
  repeat (mkRow "O1" (Ts 0) "WidgetA" "Cat1" "East" 100 "1970-01")
         (Z.to_nat (max_rows + 1)).

(** Three records with [float64] Sales 0.1, 0.2 and 0.4. *)
Definition float_view : F64.View :=
  [ ("East"%string, 0x1.999999999999ap-4%float);
    ("West"%string, 0x1.999999999999ap-3%float);
    ("East"%string, 0x1.999999999999ap-2%float) ].



(** ** Order of equal sums *)

(** [precedes l a b]: some occurrence of [a] in [l] comes before some
    occurrence of [b]. *)
Inductive precedes {A : Type} : list A -> A -> A -> Prop :=
| prec_here a b l : In b l -> precedes (a :: l) a b
| prec_later c a b l : precedes l a b -> precedes (c :: l) a b.

(** Entries with equal sums come in the order they have in the grouping. *)
Definition ties_in_group_order (grouping result : Indexed) : Prop :=
  forall a b,
    precedes result a b -> (snd a == snd b)%Q -> precedes grouping a b.

(** Two products with the same total. *)
Definition tie_view : DataFrame :=
  [ mkRow "O1" (Ts (Pd.to_datetime jan5)) "A" "Cat1" "East" 100 "2024-01";
    mkRow "O2" (Ts (Pd.to_datetime jan5)) "B" "Cat1" "East" 100 "2024-01" ].

(** ** Loading *)

(** The cells of the first column of the file with the given name. *)
Fixpoint text_column (file : Loader.TextFile) (name : string)
  : option (list string) :=
  match file with
  | [] => None
  | (n, cells) :: file' =>
      if String.eqb name n then Some cells else text_column file' name
  end.

(** Column names with the number of cells under each. *)
Definition file_shape (file : Loader.TextFile) : list (string * nat) :=
  map (fun c => (fst c, List.length (snd c))) file.

Definition frame_shape (t : Loader.Frame) : list (string * nat) :=
  map (fun c => (fst c, Loader.height (snd c))) t.

(** Some cell is not a date for the parser. *)
Definition unparseable (parse : string -> option datetime)
    (cells : list string) : Prop :=
  exists c, In c cells /\ parse c = None.

(** A file without the columns Product, Category, Region and Sales. *)
Definition file_two_columns : Loader.TextFile :=
  [ ("Order ID", ["O1"; "O2"]); ("Order Date", ["2024-01-05"; "2024-02-10"])
  ]%string.

(** A complete file, with the month column, whose second date is no date. *)
Definition file_bad_date : Loader.TextFile :=
  [ ("Order ID", ["O1"; "O2"]); ("Order Date", ["2024-01-05"; "soon"]);
    ("Product", ["WidgetA"; "WidgetB"]); ("Category", ["Cat1"; "Cat1"]);
    ("Region", ["East"; "West"]); ("Sales", ["100"; "50"]);
    ("order_month", ["2024-01"; "2024-02"]) ]%string.

(** ** Vocabulary of the further properties *)

(** Nanoseconds in a day. *)
Definition day_ns : Z := 86400000000000.

(** A date without a time of day. *)
Definition at_midnight (d : datetime) : Prop :=
  match d with NaT => False | Ts x => x mod day_ns = 0 end.

(** Dated on or before a Timestamp. *)
Definition not_after (e : Z) (r : Row) : bool :=
  match OrderDate r with NaT => false | Ts x => x <=? e end.

(** The first and the last day a [datetime64[ns]] value can fall on. *)
Definition first_day : Z := -106752.
Definition last_day : Z := 106751.

Definition in_range (ns : Z) : Prop :=
  first_day * day_ns <= ns < (last_day + 1) * day_ns.

(** The calendar month of a day number, counted in months (12 * year +
    month), and the bucket text of such a count. *)
Definition month_index (d : Z) : Z :=
  let '(y, m, _) := Loader.civil_from_days d in 12 * y + m.

Definition bucket_of_index (i : Z) : string :=
  (Loader.pad4 ((i - 1) / 12) ++ "-" ++ Loader.pad2 ((i - 1) mod 12 + 1))%string.

(** The bucket texts of the [n + 1] months from [i] on are in strictly
    ascending order. *)
Fixpoint buckets_ascend (n : nat) (i : Z) : bool :=
  match n with
  | O => true
  | S n' =>
      if String.ltb (bucket_of_index i) (bucket_of_index (i + 1))
      then buckets_ascend n' (i + 1)
      else false
  end.

(** The parts of [Loader.civil_from_days]: the 400-year era of a day, the
    day within the era, and from it the year of the era, the day of that
    year (from 1 March) and the month (from March). *)
Definition era_of (d : Z) : Z := (d + 719468) / 146097.
Definition doe_of (d : Z) : Z := d + 719468 - era_of d * 146097.
Definition yoe_of (doe : Z) : Z :=
  (doe - doe / 1460 + doe / 36524 - doe / 146096) / 365.
Definition doy_of (doe : Z) : Z :=
  doe - (365 * yoe_of doe + yoe_of doe / 4 - yoe_of doe / 100).
Definition mp_of (doe : Z) : Z := (5 * doy_of doe + 2) / 153.

(** The number of body rows of each sheet of a run's export. *)
Definition d_excel_rows_of (r : result Dashboard) : option (list nat) :=
  match r with
  | Ok d => Some (map (fun sh => List.length (Xl.body sh)) (d_excel d))
  | Raise _ => None
  end.

(** * Part III: properties *)

(** ** numpy scalars *)

Lemma is_zero_true (a : Q) : Np.is_zero a = true <-> (a == 0)%Q.
Proof.
  unfold Np.is_zero, Qeq. simpl. rewrite Z.eqb_eq. lia.
Qed.

Lemma is_zero_false (a : Q) : Np.is_zero a = false <-> ~ (a == 0)%Q.
Proof.
  rewrite <- is_zero_true. destruct (Np.is_zero a); intuition congruence.
Qed.

Lemma truediv_finite (a b : Q) :
  ~ (b == 0)%Q -> Np.truediv a b = Np.Num (a / b)%Q.
Proof.
  intros Hb. unfold Np.truediv.
  apply is_zero_false in Hb. now rewrite Hb.
Qed.

(** ** The filter *)

Lemma existsb_eqb_In (x : string) (l : list string) :
  existsb (String.eqb x) l = true <-> In x l.
Proof.
  rewrite existsb_exists. split.
  - intros [y [Hy He]]. apply String.eqb_eq in He. now subst.
  - intros H. exists x. split; [assumption | apply String.eqb_refl].
Qed.

Lemma satisfiesb_spec (fs : FilterState) (r : Row) :
  satisfiesb fs r = true <-> satisfies fs r.
Proof.
  unfold satisfiesb, satisfies, on_or_after, on_or_before.
  rewrite !andb_true_iff, !existsb_eqb_In.
  destruct (OrderDate r) as [|x].
  - intuition discriminate.
  - rewrite andb_true_iff, !Z.leb_le. tauto.
Qed.

(** The column-wise mask selects the same rows as the row-wise test. *)
Lemma loc_mask_filter (fs : FilterState) (t : DataFrame) :
  Pd.loc t (mask t fs) = filter (satisfiesb fs) t.
Proof.
  unfold Pd.loc, mask, Pd.and_, Pd.ge, Pd.le, Pd.isin, Pd.col.
  induction t as [|r t IH]; simpl; [reflexivity|].
  unfold satisfiesb at 1.
  destruct (OrderDate r) as [|x]; simpl.
  - exact IH.
  - destruct ((start fs <=? x) && (x <=? end_ fs)
              && existsb (String.eqb (Region r)) (regions fs)
              && existsb (String.eqb (Category r)) (categories fs));
      simpl; now rewrite IH.
Qed.

Lemma filter_view_filter (fs : FilterState) (t : DataFrame) :
  filter_view t fs = filter (satisfiesb fs) t.
Proof. unfold filter_view, Pd.copy. apply loc_mask_filter. Qed.

Lemma filter_Selection (fs : FilterState) (t : DataFrame) :
  Selection (satisfies fs) t (filter (satisfiesb fs) t).
Proof.
  induction t as [|r t IH]; simpl; [constructor|].
  destruct (satisfiesb fs r) eqn:E.
  - apply sel_keep; [now apply satisfiesb_spec | exact IH].
  - apply sel_drop; [| exact IH].
    intros H. apply satisfiesb_spec in H. congruence.
Qed.

(** A selection is determined by the table and the predicate. *)
Lemma Selection_unique (P : Row -> Prop) (t v w : DataFrame) :
  Selection P t v -> Selection P t w -> v = w.
Proof.
  intros Hv. revert w.
  induction Hv; intros w Hw; inversion Hw; subst;
    try reflexivity; try contradiction.
  - f_equal. now apply IHHv.
  - now apply IHHv.
Qed.

(** C4.  The filter step leaves in [df_f] exactly the rows of [df] that
    satisfy all four predicates (date >= start, date <= end, both inclusive,
    region among the allowed regions, category among the allowed
    categories), in the order of [df], and it leaves [df] itself as it
    was. *)
Theorem filter_exactly_matching_rows (fs : FilterState) (g : Globals) :
  Selection (satisfies fs) (df g) (df_f (apply_filters fs g)) /\
  df (apply_filters fs g) = df g.
Proof.
  split; [| reflexivity].
  simpl. rewrite filter_view_filter. apply filter_Selection.
Qed.

(** C5.  With the start strictly after the end the filter returns the empty
    view; the step is a total function, it has no failing case. *)
Theorem start_after_end_empty (fs : FilterState) (t : DataFrame) :
  end_ fs < start fs -> filter_view t fs = [].
Proof.
  intros Hlt. rewrite filter_view_filter.
  induction t as [|r t IH]; simpl; [reflexivity|].
  rewrite IH.
  replace (satisfiesb fs r) with false; [reflexivity|].
  symmetry. unfold satisfiesb.
  destruct (OrderDate r) as [|x]; [reflexivity|].
  destruct (start fs <=? x) eqn:E1; [| reflexivity].
  destruct (x <=? end_ fs) eqn:E2; [| reflexivity].
  apply Z.leb_le in E1, E2. lia.
Qed.

Lemma start_after_end_empty_witness :
  end_ backwards < start backwards /\ filter_view scenario backwards = [].
Proof.
  split.
  - reflexivity.
  - apply start_after_end_empty. reflexivity.
Defined.

(** C6.  Filtering a filtered view again with the same filter state gives
    the same view. *)
Theorem filter_idempotent (fs : FilterState) (t : DataFrame) :
  filter_view (filter_view t fs) fs = filter_view t fs.
Proof.
  rewrite !filter_view_filter.
  induction t as [|r t IH]; simpl; [reflexivity|].
  destruct (satisfiesb fs r) eqn:E; simpl; [| exact IH].
  now rewrite E, IH.
Qed.

Lemma filter_filter_and {A : Type} (f g : A -> bool) (l : list A) :
  filter f (filter g l) = filter (fun x => g x && f x) l.
Proof.
  induction l as [|x l IH]; simpl; [reflexivity|].
  destruct (g x); simpl; [| exact IH].
  destruct (f x); now rewrite IH.
Qed.

(** ** Sums *)

Lemma fold_left_Qplus (l : list Q) (a : Q) :
  (fold_left Qplus l a == a + fold_left Qplus l 0)%Q.
Proof.
  revert a. induction l as [|x l IH]; intros a; simpl.
  - ring.
  - rewrite IH. rewrite (IH (0 + x)%Q). ring.
Qed.

Lemma sum_cons (x : Q) (l : list Q) : (Pd.sum (x :: l) == x + Pd.sum l)%Q.
Proof.
  unfold Pd.sum. simpl. rewrite fold_left_Qplus. ring.
Qed.

Lemma sum_map_ext {A : Type} (f g : A -> Q) (l : list A) :
  (forall x, In x l -> (f x == g x)%Q) ->
  (Pd.sum (map f l) == Pd.sum (map g l))%Q.
Proof.
  induction l as [|x l IH]; intros H; simpl; [reflexivity|].
  rewrite !sum_cons, IH, (H x); [reflexivity | now left |].
  intros y Hy. apply H. now right.
Qed.

Lemma sum_map_plus {A : Type} (f g : A -> Q) (l : list A) :
  (Pd.sum (map (fun x => f x + g x) l)
   == Pd.sum (map f l) + Pd.sum (map g l))%Q.
Proof.
  induction l as [|x l IH]; simpl; [reflexivity|].
  rewrite !sum_cons, IH. ring.
Qed.

Lemma sum_map_zero {A : Type} (l : list A) :
  (Pd.sum (map (fun _ => 0) l) == 0)%Q.
Proof.
  induction l as [|x l IH]; simpl; [reflexivity|].
  rewrite sum_cons, IH. ring.
Qed.

(** Summing, over distinct keys, a value placed at one of them. *)
Lemma sum_at_key (k : string) (v : Q) (ks : list string) :
  NoDup ks -> In k ks ->
  (Pd.sum (map (fun k' => if String.eqb k k' then v else 0) ks) == v)%Q.
Proof.
  induction ks as [|k0 ks IH]; intros Hnd Hin; [contradiction|].
  inversion Hnd as [|? ? Hnotin Hnd']; subst.
  simpl map. rewrite sum_cons.
  destruct (String.eqb_spec k k0) as [-> | Hne].
  - rewrite (sum_map_ext _ (fun _ => 0%Q)).
    + rewrite sum_map_zero. ring.
    + intros x Hx. destruct (String.eqb_spec k0 x) as [-> | _];
        [contradiction | reflexivity].
  - destruct Hin as [-> | Hin]; [congruence|].
    rewrite IH by assumption. ring.
Qed.

(** The sums of the groups of distinct keys that cover the table add up to
    the sum of the table. *)
Lemma group_sums_total (key : Row -> string) (ks : list string)
    (t : DataFrame) :
  NoDup ks -> (forall r, In r t -> In (key r) ks) ->
  (Pd.sum (map (fun k => Pd.sum (Pd.col Sales (Pd.group key k t))) ks)
   == Pd.sum (Pd.col Sales t))%Q.
Proof.
  intros Hnd. induction t as [|r t IH]; intros Hcov.
  - simpl. apply sum_map_zero.
  - rewrite (sum_map_ext _
      (fun k => (if String.eqb (key r) k then Sales r else 0)
                + Pd.sum (Pd.col Sales (Pd.group key k t)))%Q).
    + rewrite sum_map_plus, sum_at_key, IH.
      * unfold Pd.col. simpl. now rewrite sum_cons.
      * intros r' Hr'. apply Hcov. now right.
      * assumption.
      * apply Hcov. now left.
    + intros k _. unfold Pd.group, Pd.col. simpl.
      destruct (String.eqb (key r) k); simpl.
      * now rewrite sum_cons.
      * ring.
Qed.

(** ** Distinct values and sorting *)

Lemma In_unique (x : string) (s : list string) :
  In x (Pd.unique s) <-> In x s.
Proof.
  induction s as [|a s IH]; simpl; [tauto|].
  rewrite filter_In, IH, negb_true_iff.
  destruct (String.eqb_spec a x) as [-> | Hne]; [tauto|].
  intuition congruence.
Qed.

Lemma NoDup_unique (s : list string) : NoDup (Pd.unique s).
Proof.
  induction s as [|a s IH]; simpl; constructor.
  - rewrite filter_In, negb_true_iff, String.eqb_neq. tauto.
  - now apply NoDup_filter.
Qed.

Lemma insert_perm {A : Type} (le : A -> A -> bool) (x : A) (l : list A) :
  Permutation (Pd.insert le x l) (x :: l).
Proof.
  induction l as [|y l IH]; simpl; [reflexivity|].
  destruct (le x y); [reflexivity|].
  rewrite IH. apply perm_swap.
Qed.

Lemma sort_perm {A : Type} (le : A -> A -> bool) (l : list A) :
  Permutation (Pd.sort le l) l.
Proof.
  induction l as [|x l IH]; simpl; [reflexivity|].
  rewrite insert_perm. now constructor.
Qed.

Section SortSorted.

Context {A : Type} (le : A -> A -> bool).
Hypothesis le_total : forall x y, le x y = false -> le y x = true.
Hypothesis le_trans :
  forall x y z, le x y = true -> le y z = true -> le x z = true.

Lemma insert_sorted (x : A) (l : list A) :
  StronglySorted (fun a b => le a b = true) l ->
  StronglySorted (fun a b => le a b = true) (Pd.insert le x l).
Proof.
  induction 1 as [|y l Hl IH Hy]; simpl.
  - repeat constructor.
  - destruct (le x y) eqn:E.
    + constructor; [now constructor|].
      constructor; [exact E|].
      eapply Forall_impl; [| exact Hy].
      intros z Hz. exact (le_trans _ _ _ E Hz).
    + constructor; [exact IH|].
      apply (Permutation_Forall (Permutation_sym (insert_perm le x l))).
      constructor; [now apply le_total | exact Hy].
Qed.

Lemma sort_sorted (l : list A) :
  StronglySorted (fun a b => le a b = true) (Pd.sort le l).
Proof.
  induction l as [|x l IH]; simpl; [constructor|].
  now apply insert_sorted.
Qed.

End SortSorted.

Lemma group_keys_NoDup (s : list string) : NoDup (Pd.group_keys s).
Proof.
  unfold Pd.group_keys.
  apply (Permutation_NoDup (Permutation_sym (sort_perm _ _))).
  apply NoDup_unique.
Qed.

Lemma In_group_keys (x : string) (s : list string) :
  In x (Pd.group_keys s) <-> In x s.
Proof.
  unfold Pd.group_keys. rewrite <- (In_unique x s). split.
  - apply Permutation_in, sort_perm.
  - apply Permutation_in, Permutation_sym, sort_perm.
Qed.

Lemma groupby_sum_keys (key : Row -> string) (t : DataFrame) :
  map fst (Pd.groupby_sum key t) = Pd.group_keys (Pd.col key t).
Proof.
  unfold Pd.groupby_sum. rewrite map_map. simpl. apply map_id.
Qed.

Lemma groupby_sum_values (key : Row -> string) (t : DataFrame) :
  map snd (Pd.groupby_sum key t)
  = map (fun k => Pd.sum (Pd.col Sales (Pd.group key k t)))
        (Pd.group_keys (Pd.col key t)).
Proof.
  unfold Pd.groupby_sum. now rewrite map_map.
Qed.

(** ** Key figures *)

Lemma groupby_total (key : Row -> string) (view : DataFrame) :
  (Pd.sum (map snd (Pd.groupby_sum key view)) == total_revenue view)%Q.
Proof.
  unfold total_revenue. rewrite groupby_sum_values.
  apply group_sums_total.
  - apply group_keys_NoDup.
  - intros r Hr. apply In_group_keys. unfold Pd.col. now apply in_map.
Qed.

Lemma filter_split_perm {A : Type} (f : A -> bool) (l : list A) :
  Permutation (filter f l ++ filter (fun x => negb (f x)) l) l.
Proof.
  induction l as [|x l IH]; simpl; [constructor|].
  destruct (f x); simpl.
  - now constructor.
  - symmetry. apply Permutation_cons_app. now symmetry.
Qed.

(** The groups of distinct keys that cover the table hold every record of
    the table once. *)
Lemma groups_partition (key : Row -> string) (ks : list string) :
  NoDup ks ->
  forall t : DataFrame,
    (forall r, In r t -> In (key r) ks) ->
    Permutation (flat_map (fun k => Pd.group key k t) ks) t.
Proof.
  induction 1 as [|k ks Hnotin Hnd IH]; intros t Hcov.
  - destruct t as [|r t]; [constructor|].
    exfalso. apply (Hcov r). now left.
  - simpl.
    set (rest := filter (fun r => negb (String.eqb (key r) k)) t).
    assert (E : flat_map (fun k' => Pd.group key k' t) ks
                = flat_map (fun k' => Pd.group key k' rest) ks).
    { rewrite !flat_map_concat_map. f_equal.
      apply map_ext_in. intros k' Hk'.
      unfold Pd.group, rest. rewrite filter_filter_and.
      apply filter_ext. intros r.
      destruct (String.eqb_spec (key r) k') as [-> | _];
        [| now rewrite andb_false_r].
      destruct (String.eqb_spec k' k) as [-> | _]; [contradiction|].
      reflexivity. }
    rewrite E, IH.
    + apply filter_split_perm.
    + intros r Hr. unfold rest in Hr. apply filter_In in Hr.
      destruct Hr as [Hr Hne]. apply negb_true_iff, String.eqb_neq in Hne.
      destruct (Hcov r Hr) as [Ek | Hin]; [congruence | exact Hin].
Qed.

(** C1 (as the code has it).  On every view the regional groups hold every
    record exactly once, so the values of the Region roll-up and the total
    revenue are sums of the same Sales values: as exact sums they are
    equal.  (Computed in [float64] they agree up to rounding only.) *)
Theorem region_rollup_partitions (view : DataFrame) :
  Permutation
    (flat_map (fun k => filter (fun r => String.eqb (Region r) k) view)
              (map fst (region_sales view)))
    view /\
  (Pd.sum (map snd (region_sales view)) == total_revenue view)%Q.
Proof.
  split; [| apply groupby_total].
  unfold region_sales. rewrite groupby_sum_keys.
  apply (groups_partition Region).
  - apply group_keys_NoDup.
  - intros r Hr. apply In_group_keys. unfold Pd.col. now apply in_map.
Qed.

(** C1 as stated fails on [float64] Sales: for the three records East 0.1,
    West 0.2, East 0.4 the total revenue is (0.1 + 0.2) + 0.4 =
    0.7000000000000001, and the roll-up values, East 0.1 + 0.4 = 0.5 and
    West 0.2, add up to 0.7. *)
Lemma float_totals_differ :
  F64.total_revenue float_view = Some 0x1.6666666666667p-1%float /\
  F64.region_sales float_view
  = [ ("East"%string, 0x1p-1%float);
      ("West"%string, 0x1.999999999999ap-3%float) ] /\
  F64.rollup_total float_view = Some 0x1.6666666666666p-1%float /\
  PrimFloat.eqb 0x1.6666666666667p-1 0x1.6666666666666p-1 = false.
Proof. repeat split; vm_compute; reflexivity. Qed.

Lemma total_orders_nonneg (view : DataFrame) : 0 <= total_orders view.
Proof. unfold total_orders, Pd.nunique. lia. Qed.

Lemma inject_Z_nonzero (n : Z) : n <> 0 -> ~ (inject_Z n == 0)%Q.
Proof. unfold Qeq. simpl. lia. Qed.

(** C2.  The average order value is the total revenue divided by the number
    of distinct orders when there is at least one order, and the number 0
    when there is none; in either case it is a finite number, never [nan].
    The computation is a total function: no view makes it raise. *)
Theorem avg_order_value_policy (view : DataFrame) :
  (0 < total_orders view ->
   avg_order_value view
   = Np.Num (total_revenue view / inject_Z (total_orders view))%Q) /\
  (total_orders view = 0 -> avg_order_value view = Np.Num 0) /\
  0 <= total_orders view /\
  Np.isnan (avg_order_value view) = false.
Proof.
  unfold avg_order_value.
  pose proof (total_orders_nonneg view) as Hn.
  destruct (0 <? total_orders view) eqn:E.
  - apply Z.ltb_lt in E.
    rewrite truediv_finite by (apply inject_Z_nonzero; lia).
    repeat split; try assumption. intros; lia.
  - apply Z.ltb_ge in E.
    repeat split; try assumption. intros; lia.
Qed.

Lemma avg_order_value_policy_witness :
  (0 < total_orders scenario /\
   avg_order_value scenario = Np.Num (350 / 2)%Q) /\
  (total_orders [] = 0 /\ avg_order_value [] = Np.Num 0).
Proof.
  split; split.
  - reflexivity.
  - apply (proj1 (avg_order_value_policy scenario)). reflexivity.
  - reflexivity.
  - apply (proj1 (proj2 (avg_order_value_policy []))). reflexivity.
Defined.

(** ** Month-over-month growth *)

Lemma iloc_neg_prev (earlier : Indexed) (prev last : string * Q) :
  Pd.iloc_neg (earlier ++ [prev; last]) 2 = Ok (snd prev).
Proof.
  unfold Pd.iloc_neg. rewrite length_app. simpl List.length.
  replace (2 <=? List.length earlier + 2)%nat with true
    by (symmetry; apply Nat.leb_le; lia).
  replace (List.length earlier + 2 - 2)%nat with (List.length earlier)
    by lia.
  rewrite nth_error_app2 by lia.
  now rewrite Nat.sub_diag.
Qed.

Lemma iloc_neg_last (earlier : Indexed) (prev last : string * Q) :
  Pd.iloc_neg (earlier ++ [prev; last]) 1 = Ok (snd last).
Proof.
  unfold Pd.iloc_neg. rewrite length_app. simpl List.length.
  replace (1 <=? List.length earlier + 2)%nat with true
    by (symmetry; apply Nat.leb_le; lia).
  rewrite nth_error_app2 by lia.
  replace (List.length earlier + 2 - 1 - List.length earlier)%nat
    with 1%nat by lia.
  reflexivity.
Qed.

(** C3.  Month-over-month growth is absent ([nan], shown as "N/A") when the
    series has fewer than two entries or when the sum of the month before
    the last is exactly 0; otherwise it is
    (last - secondToLast) / secondToLast * 100.  It never raises. *)
Theorem mom_growth_policy (series : Indexed) :
  ((List.length series < 2)%nat -> mom_growth series = Ok Np.nan) /\
  (forall earlier prev last,
      series = earlier ++ [prev; last] ->
      ((snd prev == 0)%Q -> mom_growth series = Ok Np.nan) /\
      (~ (snd prev == 0)%Q ->
       mom_growth series
       = Ok (Np.Num ((snd last - snd prev) / snd prev * 100)%Q))).
Proof.
  split.
  - intros Hlen. unfold mom_growth.
    replace (2 <=? List.length series)%nat with false; [reflexivity|].
    symmetry. apply Nat.leb_gt. exact Hlen.
  - intros earlier prev last ->. unfold mom_growth.
    rewrite length_app. simpl List.length.
    replace (2 <=? List.length earlier + 2)%nat with true
      by (symmetry; apply Nat.leb_le; lia).
    rewrite iloc_neg_prev, iloc_neg_last. simpl.
    split; intros Hz.
    + apply is_zero_true in Hz. now rewrite Hz.
    + pose proof Hz as Hz'. apply is_zero_false in Hz'. rewrite Hz'. simpl.
      now rewrite truediv_finite.
Qed.

Lemma mom_growth_policy_witness :
  ((List.length [("2024-01"%string, 150%Q)] < 2)%nat /\
   mom_growth [("2024-01"%string, 150%Q)] = Ok Np.nan) /\
  ((0 == 0)%Q /\
   mom_growth [("2024-01"%string, 0%Q); ("2024-02"%string, 200%Q)]
   = Ok Np.nan) /\
  (monthly_sales scenario
   = [] ++ [("2024-01"%string, 150%Q); ("2024-02"%string, 200%Q)] /\
   ~ (150 == 0)%Q /\
   mom_growth (monthly_sales scenario)
   = Ok (Np.Num ((200 - 150) / 150 * 100)%Q)).
Proof.
  split; [| split].
  - split; [simpl; lia|].
    apply (proj1 (mom_growth_policy _)). simpl. lia.
  - split; [reflexivity|].
    apply (proj2 (mom_growth_policy _) [] ("2024-01"%string, 0%Q)
             ("2024-02"%string, 200%Q)); reflexivity.
  - split; [reflexivity|]. split; [unfold Qeq; simpl; lia|].
    apply (proj2 (mom_growth_policy _) [] ("2024-01"%string, 150%Q)
             ("2024-02"%string, 200%Q)).
    + reflexivity.
    + simpl. unfold Qeq. simpl. lia.
Defined.

(** ** Order of the group keys *)

Lemma leb_flip (x y : string) : String.leb x y = false -> String.leb y x = true.
Proof.
  intros H. destruct (String.leb_total x y) as [H' | H']; congruence.
Qed.

Lemma compare_refl (x : string) : String.compare x x = Eq.
Proof. now apply String_as_OT.cmp_eq. Qed.

Lemma leb_trans (x y z : string) :
  String.leb x y = true -> String.leb y z = true -> String.leb x z = true.
Proof.
  unfold String.leb.
  destruct (String.compare x y) eqn:Exy; try discriminate;
    destruct (String.compare y z) eqn:Eyz; try discriminate; intros _ _.
  - apply String.compare_eq_iff in Exy, Eyz.
    now rewrite Exy, Eyz, compare_refl.
  - apply String.compare_eq_iff in Exy. now rewrite Exy, Eyz.
  - apply String.compare_eq_iff in Eyz. now rewrite <- Eyz, Exy.
  - apply String_as_OT.cmp_lt in Exy, Eyz.
    pose proof (String_as_OT.lt_trans _ _ _ Exy Eyz) as H.
    apply String_as_OT.cmp_lt in H. unfold String_as_OT.cmp in H.
    now rewrite H.
Qed.

Lemma leb_neq_ltb (x y : string) :
  String.leb x y = true -> x <> y -> key_lt x y.
Proof.
  unfold String.leb, key_lt, String.ltb.
  destruct (String.compare x y) eqn:E; intros H Hne;
    try reflexivity; try discriminate.
  apply String.compare_eq_iff in E. contradiction.
Qed.

Lemma sorted_NoDup_strict (l : list string) :
  StronglySorted (fun a b => String.leb a b = true) l -> NoDup l ->
  StronglySorted key_lt l.
Proof.
  induction 1 as [|a l Hs IH Ha]; intros Hnd; constructor;
    inversion Hnd as [|? ? Hnotin Hnd']; subst.
  - now apply IH.
  - rewrite Forall_forall in *. intros x Hx.
    apply leb_neq_ltb; [now apply Ha|].
    intros ->. contradiction.
Qed.

Lemma group_keys_ascending (s : list string) :
  StronglySorted key_lt (Pd.group_keys s).
Proof.
  apply sorted_NoDup_strict.
  - unfold Pd.group_keys. apply sort_sorted.
    + exact leb_flip.
    + exact leb_trans.
  - apply group_keys_NoDup.
Qed.

Lemma group_keys_cover (key : Row -> string) (view : DataFrame) (k : string) :
  In k (Pd.group_keys (Pd.col key view)) <->
  exists r, In r view /\ key r = k.
Proof.
  rewrite In_group_keys. unfold Pd.col. rewrite in_map_iff.
  split; intros [r [H1 H2]]; exists r; tauto.
Qed.

(** ** Export *)


Lemma to_excel_bytes_sheets (view : DataFrame) :
  to_excel_bytes view =
  [ Xl.mkSheet "raw_data" frame_columns (map row_cells view);
    Xl.mkSheet "product_sales" ["Product"; "Sales"]%string
      (map entry_cells (Pd.reset_index (Pd.groupby_sum Product view)));
    Xl.mkSheet "category_sales" ["Category"; "Sales"]%string
      (map entry_cells (Pd.reset_index (Pd.groupby_sum Category view)));
    Xl.mkSheet "region_sales" ["Region"; "Sales"]%string
      (map entry_cells (Pd.reset_index (Pd.groupby_sum Region view))) ].
Proof. reflexivity. Qed.

Lemma sum_exact (l : list Q) : (Pd.sum l == exact_sum l)%Q.
Proof.
  induction l as [|x l IH]; simpl; [reflexivity|].
  now rewrite sum_cons, IH.
Qed.

Lemma groupby_sum_rollup_rows (key : Row -> string) (view : DataFrame) :
  rollup_rows key view
    (map entry_cells (Pd.reset_index (Pd.groupby_sum key view))).
Proof.
  exists (Pd.groupby_sum key view). repeat split.
  - rewrite groupby_sum_keys. apply group_keys_NoDup.
  - rewrite groupby_sum_keys. apply group_keys_cover.
  - rewrite groupby_sum_keys. apply group_keys_cover.
  - intros k q Hin. unfold Pd.groupby_sum in Hin.
    apply in_map_iff in Hin. destruct Hin as [k' [Heq _]].
    inversion Heq; subst. apply sum_exact.
Qed.

Lemma unique_length (s : list string) :
  (List.length (Pd.unique s) <= List.length s)%nat.
Proof.
  induction s as [|x s IH]; simpl; [lia|].
  pose proof (filter_length_le (fun y => negb (String.eqb x y))
                (Pd.unique s)).
  lia.
Qed.

Lemma groupby_sum_length (key : Row -> string) (t : DataFrame) :
  (List.length (Pd.groupby_sum key t) <= List.length t)%nat.
Proof.
  unfold Pd.groupby_sum, Pd.group_keys. rewrite length_map.
  rewrite (Permutation_length (sort_perm _ _)).
  pose proof (unique_length (Pd.col key t)) as H.
  unfold Pd.col in H at 2. now rewrite length_map in H.
Qed.

Lemma write_sheet_fits (name : string) (header : list string)
    (rows : list (list Xl.cell)) :
  Z.of_nat (List.length rows) < max_rows ->
  write_sheet name header rows = Ok (Xl.mkSheet name header rows).
Proof.
  intros H. unfold write_sheet.
  destruct (Z.ltb_spec max_rows (Z.of_nat (List.length rows))); [lia|].
  destruct (Z.eqb_spec (Z.of_nat (List.length rows)) max_rows); [lia|].
  reflexivity.
Qed.

(** A view that fits the sheets is exported as [to_excel_bytes] has it. *)
Lemma excel_data_fits (view : DataFrame) :
  Z.of_nat (List.length view) < max_rows ->
  excel_data view = Ok (to_excel_bytes view).
Proof.
  intros H. unfold excel_data.
  pose proof (groupby_sum_length Product view).
  pose proof (groupby_sum_length Category view).
  pose proof (groupby_sum_length Region view).
  rewrite !write_sheet_fits;
    unfold Pd.reset_index; rewrite ?length_map; try lia.
  reflexivity.
Qed.

(** C8 (as the code has it).  For a view of fewer records than a sheet has
    rows, the export holds exactly four sheets, in the order raw_data,
    product_sales, category_sales, region_sales.  raw_data has the seven
    columns of the frame and one row per record of the view, in order,
    with the record's own values, nothing aggregated.  Each roll-up sheet
    has two columns, the group key and Sales, and one row for every
    distinct key of the whole view (no top-5 cut), holding the sum of Sales
    over the records with that key. *)
Theorem export_sheets_content (view : DataFrame) :
  Z.of_nat (List.length view) < 1048576 ->
  exists raw product category region : list (list Xl.cell),
    excel_data view =
    Ok [ Xl.mkSheet "raw_data"
           ["Order ID"; "Order Date"; "Product"; "Category"; "Region";
            "Sales"; "order_month"]%string raw;
         Xl.mkSheet "product_sales" ["Product"; "Sales"]%string product;
         Xl.mkSheet "category_sales" ["Category"; "Sales"]%string category;
         Xl.mkSheet "region_sales" ["Region"; "Sales"]%string region ] /\
    raw = map (fun r =>
                 [Xl.Text (OrderID r); Xl.Date (OrderDate r);
                  Xl.Text (Product r); Xl.Text (Category r);
                  Xl.Text (Region r); Xl.Number (Sales r);
                  Xl.Text (order_month r)]) view /\
    rollup_rows Product view product /\
    rollup_rows Category view category /\
    rollup_rows Region view region.
Proof.
  intros Hfit. do 4 eexists.
  split; [rewrite (excel_data_fits view Hfit), to_excel_bytes_sheets;
          reflexivity|].
  split; [reflexivity|].
  repeat split; apply groupby_sum_rollup_rows.
Qed.

Lemma export_sheets_content_witness :
  Z.of_nat (List.length scenario) < 1048576 /\
  exists raw product category region : list (list Xl.cell),
    excel_data scenario =
    Ok [ Xl.mkSheet "raw_data"
           ["Order ID"; "Order Date"; "Product"; "Category"; "Region";
            "Sales"; "order_month"]%string raw;
         Xl.mkSheet "product_sales" ["Product"; "Sales"]%string product;
         Xl.mkSheet "category_sales" ["Category"; "Sales"]%string category;
         Xl.mkSheet "region_sales" ["Region"; "Sales"]%string region ] /\
    raw = map (fun r =>
                 [Xl.Text (OrderID r); Xl.Date (OrderDate r);
                  Xl.Text (Product r); Xl.Text (Category r);
                  Xl.Text (Region r); Xl.Number (Sales r);
                  Xl.Text (order_month r)]) scenario /\
    rollup_rows Product scenario product /\
    rollup_rows Category scenario category /\
    rollup_rows Region scenario region.
Proof.
  split; [reflexivity|].
  apply export_sheets_content. reflexivity.
Defined.

(** C8 as stated fails on a view that does not fit a sheet: with one
    record more than a sheet has rows the export raises [ValueError] and
    no spreadsheet is produced. *)
Lemma export_refuses_oversized_view :
  Z.of_nat (List.length oversized_view) = 1048577 /\
  excel_data oversized_view = Raise ValueError.
Proof. split; vm_compute; reflexivity. Qed.



(** ** Sorting by value *)

Lemma StronglySorted_weaken {A : Type} (R R' : A -> A -> Prop) (l : list A) :
  (forall a b, R a b -> R' a b) -> StronglySorted R l -> StronglySorted R' l.
Proof.
  intros HR. induction 1 as [|a l Hs IH Ha]; constructor; [exact IH|].
  eapply Forall_impl; [| exact Ha]. intros b. apply HR.
Qed.

Lemma StronglySorted_app {A : Type} (R : A -> A -> Prop) (l1 l2 : list A) :
  StronglySorted R l1 -> StronglySorted R l2 ->
  (forall a b, In a l1 -> In b l2 -> R a b) ->
  StronglySorted R (l1 ++ l2).
Proof.
  induction 1 as [|a l Hs IH Ha]; intros H2 Hc; simpl; [exact H2|].
  constructor.
  - apply IH; [exact H2|]. intros x y Hx Hy. apply Hc; [now right | exact Hy].
  - apply Forall_app. split; [exact Ha|].
    apply Forall_forall. intros y Hy. apply Hc; [now left | exact Hy].
Qed.

Lemma StronglySorted_app_inv {A : Type} (R : A -> A -> Prop)
    (l1 l2 : list A) :
  StronglySorted R (l1 ++ l2) ->
  StronglySorted R l1 /\ StronglySorted R l2 /\
  (forall a b, In a l1 -> In b l2 -> R a b).
Proof.
  induction l1 as [|x l1 IH]; simpl; intros H.
  - repeat split; [constructor | exact H | contradiction].
  - apply StronglySorted_inv in H. destruct H as [Hs Hx].
    apply Forall_app in Hx. destruct Hx as [Hx1 Hx2].
    destruct (IH Hs) as [H1 [H2 Hc]].
    repeat split; [now constructor | exact H2 |].
    intros a b [<- | Ha] Hb.
    + rewrite Forall_forall in Hx2. now apply Hx2.
    + now apply Hc.
Qed.

Lemma StronglySorted_rev {A : Type} (R : A -> A -> Prop) (l : list A) :
  StronglySorted R l -> StronglySorted (fun a b => R b a) (rev l).
Proof.
  induction 1 as [|a l Hs IH Ha]; simpl; [constructor|].
  apply StronglySorted_app; [exact IH | repeat constructor |].
  intros x y Hx [<- | []].
  rewrite Forall_forall in Ha. apply Ha. now apply in_rev.
Qed.

Lemma Qle_bool_flip (x y : Q) : Qle_bool x y = false -> Qle_bool y x = true.
Proof.
  intros H. apply Qle_bool_iff.
  destruct (Qlt_le_dec x y) as [Hlt | Hle]; [| exact Hle].
  apply Qlt_le_weak, Qle_bool_iff in Hlt. congruence.
Qed.

Lemma Qle_bool_trans (x y z : Q) :
  Qle_bool x y = true -> Qle_bool y z = true -> Qle_bool x z = true.
Proof.
  rewrite !Qle_bool_iff. apply Qle_trans.
Qed.

Lemma sort_values_stable_promise :
  Pd.sorts_values_descending Pd.sort_values_stable.
Proof.
  split; intros s; unfold Pd.sort_values_stable.
  - apply sort_perm.
  - unfold Pd.Descending.
    eapply StronglySorted_weaken; [| apply sort_sorted].
    + intros a b H. apply Qle_bool_iff. exact H.
    + intros x y. apply Qle_bool_flip.
    + intros x y z H1 H2. exact (Qle_bool_trans _ _ _ H2 H1).
Qed.

(** ** Top products *)

(** X25.  For any descending sort, the top products are at most 5 entries
    (5, or all the groups when there are fewer), in descending order of the
    summed Sales; they are entries of the Product grouping, and no group
    left out has a larger sum than a group listed. *)
Theorem top_products_descending (sort_values : Indexed -> Indexed)
    (view : DataFrame) :
  Pd.sorts_values_descending sort_values ->
  (List.length (top_products sort_values view) <= 5)%nat /\
  List.length (top_products sort_values view)
  = Nat.min 5 (List.length (Pd.groupby_sum Product view)) /\
  Pd.Descending (top_products sort_values view) /\
  exists rest,
    Permutation (top_products sort_values view ++ rest)
                (Pd.groupby_sum Product view) /\
    forall a b,
      In a (top_products sort_values view) -> In b rest ->
      (snd b <= snd a)%Q.
Proof.
  intros [Hperm Hdesc].
  unfold top_products, Pd.reset_index, Pd.head.
  set (g := Pd.groupby_sum Product view).
  pose proof (Hdesc g) as Hd. unfold Pd.Descending in Hd.
  rewrite <- (firstn_skipn 5 (sort_values g)) in Hd.
  apply StronglySorted_app_inv in Hd. destruct Hd as [H1 [_ Hc]].
  split; [apply firstn_le_length|].
  split.
  - rewrite length_firstn. f_equal. apply Permutation_length, Hperm.
  - split; [exact H1|].
    exists (skipn 5 (sort_values g)). split.
    + rewrite firstn_skipn. apply Hperm.
    + exact Hc.
Qed.

Lemma top_products_descending_witness :
  Pd.sorts_values_descending Pd.sort_values_stable /\
  (List.length (top_products Pd.sort_values_stable scenario) <= 5)%nat /\
  Pd.Descending (top_products Pd.sort_values_stable scenario).
Proof.
  split; [exact sort_values_stable_promise|].
  split.
  - exact (proj1 (top_products_descending Pd.sort_values_stable scenario
                    sort_values_stable_promise)).
  - exact (proj1 (proj2 (proj2
             (top_products_descending Pd.sort_values_stable scenario
                sort_values_stable_promise)))).
Defined.

(** With a stable sort the order among equal sums is that of the grouping. *)

Lemma precedes_insert {A : Type} (le : A -> A -> bool) (x : A) (s : list A)
    (a b : A) :
  precedes (Pd.insert le x s) a b ->
  precedes s a b \/ (a = x /\ In b s) \/ (b = x /\ le x a = false).
Proof.
  induction s as [|y s IH]; simpl.
  - intros H. inversion H as [? ? ? Hin | ? ? ? ? Hp]; subst.
    + destruct Hin.
    + inversion Hp.
  - destruct (le x y) eqn:E; intros H;
      inversion H as [? ? ? Hin | ? ? ? ? Hp]; subst.
    + right. left. split; [reflexivity | exact Hin].
    + left. exact Hp.
    + apply (Permutation_in _ (insert_perm le x s)) in Hin.
      destruct Hin as [<- | Hin].
      * right. right. split; [reflexivity | exact E].
      * left. now constructor.
    + destruct (IH Hp) as [H1 | [[-> H2] | H3]].
      * left. now apply prec_later.
      * right. left. split; [reflexivity | now right].
      * right. right. exact H3.
Qed.

Lemma sort_stable {A : Type} (le : A -> A -> bool) (l : list A) (a b : A) :
  precedes (Pd.sort le l) a b -> le b a = true -> precedes l a b.
Proof.
  induction l as [|x l IH]; simpl; intros H Hle.
  - inversion H.
  - destruct (precedes_insert _ _ _ _ _ H) as [H1 | [[-> H2] | [-> H3]]].
    + apply prec_later. now apply IH.
    + apply prec_here. apply (Permutation_in _ (sort_perm le l)). exact H2.
    + congruence.
Qed.

Lemma precedes_firstn {A : Type} (n : nat) (l : list A) (a b : A) :
  precedes (firstn n l) a b -> precedes l a b.
Proof.
  revert l. induction n as [|n IH]; intros [|x l]; simpl; intros H;
    try (now inversion H).
  inversion H as [? ? ? Hin | ? ? ? ? Hp]; subst.
  - apply prec_here. rewrite <- (firstn_skipn n l).
    apply in_or_app. now left.
  - apply prec_later. now apply IH.
Qed.

Lemma top_products_stable_ties (view : DataFrame) :
  ties_in_group_order (Pd.groupby_sum Product view)
    (top_products Pd.sort_values_stable view).
Proof.
  intros a b Hp Heq.
  unfold top_products, Pd.reset_index, Pd.head in Hp.
  apply precedes_firstn in Hp.
  unfold Pd.sort_values_stable in Hp.
  apply sort_stable in Hp; [exact Hp|].
  apply Qle_bool_iff. rewrite Heq. apply Qle_refl.
Qed.

(** ** Loading *)

Lemma parse_all_Some (parse : string -> option datetime)
    (cells : list string) (ds : list datetime) :
  Loader.parse_all parse cells = Some ds <->
  Forall2 (fun c d => parse c = Some d) cells ds.
Proof.
  revert ds. induction cells as [|c cells IH]; intros ds; simpl.
  - split.
    + intros H. inversion H. constructor.
    + intros H. inversion H. reflexivity.
  - destruct (parse c) as [d|] eqn:Ec.
    + destruct (Loader.parse_all parse cells) as [ds'|].
      * split.
        -- intros H. inversion H. constructor; [exact Ec | now apply IH].
        -- intros H. inversion H as [|? d' ? ds'' Hd Hds]; subst.
           apply IH in Hds. congruence.
      * split; [discriminate|].
        intros H. inversion H as [|? d' ? ds'' Hd Hds]; subst.
        apply IH in Hds. discriminate.
    + split; [destruct (Loader.parse_all parse cells); discriminate|].
      intros H. inversion H. congruence.
Qed.

Lemma parse_all_None (parse : string -> option datetime)
    (cells : list string) :
  Loader.parse_all parse cells = None <-> unparseable parse cells.
Proof.
  unfold unparseable. induction cells as [|c cells IH]; simpl.
  - split; [discriminate | intros [c [[] _]]].
  - destruct (parse c) as [d|] eqn:Ec.
    + destruct (Loader.parse_all parse cells) as [ds'|].
      * split; [discriminate|].
        intros [c' [[<- | Hin] Hc']]; [congruence|].
        assert (Some ds' = None) as H; [| discriminate H].
        apply IH. exists c'. now split.
      * split; [| reflexivity]. intros _.
        destruct (proj1 IH eq_refl) as [c' [Hin Hc']].
        exists c'. split; [now right | exact Hc'].
    + split; [| destruct (Loader.parse_all parse cells); reflexivity].
      intros _. exists c. split; [now left | exact Ec].
Qed.

Lemma parse_all_length (parse : string -> option datetime)
    (cells : list string) (ds : list datetime) :
  Loader.parse_all parse cells = Some ds ->
  List.length ds = List.length cells.
Proof.
  intros H. apply parse_all_Some in H.
  symmetry. eapply Forall2_length. exact H.
Qed.

Lemma text_column_has (file : Loader.TextFile) (name : string) :
  Loader.has_column name file = false <-> text_column file name = None.
Proof.
  induction file as [|[n cells] file IH]; simpl; [tauto|].
  destruct (String.eqb name n); simpl; [| exact IH].
  split; discriminate.
Qed.

Lemma has_column_convert (parse : string -> option datetime)
    (pd name : string) (file : Loader.TextFile) :
  Loader.has_column name (map (Loader.convert parse pd) file)
  = Loader.has_column name file.
Proof.
  induction file as [|c file IH]; simpl; [reflexivity | now rewrite IH].
Qed.

Lemma getitem_convert (parse : string -> option datetime) (name : string)
    (file : Loader.TextFile) (cells : list string) :
  text_column file name = Some cells ->
  Loader.getitem (map (Loader.convert parse name) file) name
  = Ok (Loader.date_column parse cells).
Proof.
  induction file as [|[n c] file IH]; simpl; [discriminate|].
  destruct (String.eqb name n) eqn:E.
  - intros H. inversion H; subst.
    rewrite String.eqb_sym, E. reflexivity.
  - exact IH.
Qed.

Lemma frame_shape_convert (parse : string -> option datetime) (pd : string)
    (file : Loader.TextFile) :
  frame_shape (map (Loader.convert parse pd) file) = file_shape file.
Proof.
  unfold frame_shape, file_shape. rewrite map_map.
  apply map_ext. intros [n cells]. unfold Loader.convert. simpl.
  f_equal.
  destruct (String.eqb n pd); [| reflexivity].
  unfold Loader.date_column.
  destruct cells as [|c cells]; [reflexivity|].
  destruct (Loader.parse_all parse (c :: cells)) as [ds|] eqn:E;
    [| reflexivity].
  simpl Loader.height. now apply parse_all_length in E.
Qed.

Lemma getitem_app (t t' : Loader.Frame) (name : string) (c : Loader.column) :
  Loader.getitem t name = Ok c -> Loader.getitem (t ++ t') name = Ok c.
Proof.
  induction t as [|[n c0] t IH]; simpl; [discriminate|].
  destruct (String.eqb name n); [trivial | exact IH].
Qed.

Lemma firstn_file_shape (file : Loader.TextFile) (extra : list (string * nat)) :
  firstn (List.length file) (file_shape file ++ extra) = file_shape file.
Proof.
  replace (List.length file) with (List.length (file_shape file) + 0)%nat
    by (unfold file_shape; rewrite length_map; lia).
  rewrite firstn_app_2. simpl. apply app_nil_r.
Qed.

(** C9 (as the code has it).  Loading raises in these cases only: with
    [ValueError] when the file has no "Order Date" column, and with
    [AttributeError] when the file has no "order_month" column and either
    has no rows at all or has an order date that does not parse.  Otherwise
    it returns a frame with every column of the file at its full height (no
    row is dropped) and an "order_month" column; its "Order Date" column
    holds the parsed dates when there are rows and all dates parse, and the
    text as read, unparsed, when a date does not parse or there is no row
    (then the file had its own "order_month" column).  No other column is
    required. *)
Theorem load_data_outcomes (parse : string -> option datetime)
    (file : Loader.TextFile) :
  match Loader.load_data parse file with
  | Raise e =>
      (text_column file "Order Date" = None /\ e = ValueError) \/
      (exists cells,
          text_column file "Order Date" = Some cells /\
          (cells = [] \/ unparseable parse cells) /\
          Loader.has_column "order_month" file = false /\
          e = AttributeError)
  | Ok t =>
      exists cells,
        text_column file "Order Date" = Some cells /\
        firstn (List.length file) (frame_shape t) = file_shape file /\
        Loader.has_column "order_month" t = true /\
        ((exists ds,
             cells <> [] /\
             Forall2 (fun c d => parse c = Some d) cells ds /\
             Loader.getitem t "Order Date" = Ok (Loader.DatetimeCol ds)) \/
         ((cells = [] \/ unparseable parse cells) /\
          Loader.has_column "order_month" file = true /\
          Loader.getitem t "Order Date" = Ok (Loader.ObjectCol cells)))
  end.
Proof.
  unfold Loader.load_data, Loader.read_csv.
  destruct (Loader.has_column "Order Date" file) eqn:Ehas.
  2:{ left. split; [now apply text_column_has | reflexivity]. }
  destruct (text_column file "Order Date") as [cells|] eqn:Ecol.
  2:{ apply text_column_has in Ecol. congruence. }
  pose proof (getitem_convert parse _ _ _ Ecol) as Hget.
  assert (Hcase :
    (exists ds, cells <> [] /\
                Forall2 (fun c d => parse c = Some d) cells ds /\
                Loader.date_column parse cells = Loader.DatetimeCol ds) \/
    ((cells = [] \/ unparseable parse cells) /\
     Loader.date_column parse cells = Loader.ObjectCol cells)).
  { unfold Loader.date_column. destruct cells as [|c cells].
    - right. split; [now left | reflexivity].
    - destruct (Loader.parse_all parse (c :: cells)) as [ds|] eqn:Ep.
      + left. exists ds. split; [discriminate|].
        split; [now apply parse_all_Some | reflexivity].
      + right. split; [right; now apply parse_all_None | reflexivity]. }
  simpl bind. rewrite has_column_convert.
  destruct (Loader.has_column "order_month" file) eqn:Eom; simpl negb;
    cbv iota.
  - exists cells. split; [reflexivity|].
    rewrite frame_shape_convert, has_column_convert.
    split; [rewrite <- (app_nil_r (file_shape file)) at 1;
            apply firstn_file_shape|].
    split; [exact Eom|].
    rewrite Hget.
    destruct Hcase as [[ds [Hne [Hds ->]]] | [Hbad ->]].
    + left. exists ds. now repeat split.
    + right. now repeat split.
  - rewrite Hget. simpl bind.
    destruct Hcase as [[ds [Hne [Hds Hcol]]] | [Hbad Hcol]];
      rewrite Hcol in *; simpl.
    + exists cells. split; [reflexivity|].
      unfold Loader.add_column.
      split.
      { unfold frame_shape. rewrite map_app.
        fold (frame_shape (map (Loader.convert parse "Order Date") file)).
        rewrite frame_shape_convert. apply firstn_file_shape. }
      split.
      { unfold Loader.has_column. rewrite existsb_app. simpl.
        apply orb_true_r. }
      left. exists ds. split; [exact Hne|]. split; [exact Hds|].
      apply getitem_app. exact Hget.
    + right. exists cells. now repeat split.
Qed.

(** C9 as stated fails: a file without the Product, Category, Region and
    Sales columns loads, and with an "order_month" column in the file a date
    that does not parse is passed through as text. *)
Lemma load_data_accepts :
  Loader.load_data Loader.iso_date file_two_columns
  = Ok [ ("Order ID"%string, Loader.InferredCol ["O1"; "O2"]%string);
         ("Order Date"%string,
          Loader.DatetimeCol [Ts 1704412800000000000;
                              Ts 1707523200000000000]);
         ("order_month"%string,
          Loader.ObjectCol ["2024-01"; "2024-02"]%string) ] /\
  Loader.iso_date "soon" = None /\
  exists t,
    Loader.load_data Loader.iso_date file_bad_date = Ok t /\
    Loader.getitem t "Order Date"
    = Ok (Loader.ObjectCol ["2024-01-05"; "soon"]%string).
Proof.
  split; [reflexivity|]. split; [reflexivity|].
  eexists. split; reflexivity.
Qed.

(** * Part IV: further properties of the code *)

(** ** The filter, continued *)

(** X1.  With no region selected, or with no category selected, the view is
    empty whatever the date range is (lines 78-79). *)
Theorem empty_selection_empty_view (fs : FilterState) (t : DataFrame) :
  regions fs = [] \/ categories fs = [] -> filter_view t fs = [].
Proof.
  intros H. rewrite filter_view_filter.
  induction t as [|r t IH]; simpl; [reflexivity|].
  replace (satisfiesb fs r) with false; [exact IH|].
  unfold satisfiesb. destruct H as [-> | ->]; simpl.
  - now rewrite andb_false_r.
  - now rewrite andb_false_r.
Qed.

Lemma empty_selection_empty_view_witness :
  (regions (mkFilter 0 (Pd.to_datetime feb10) [] ["Cat1"%string]) = [] \/
   categories (mkFilter 0 (Pd.to_datetime feb10) [] ["Cat1"%string]) = []) /\
  filter_view scenario (mkFilter 0 (Pd.to_datetime feb10) [] ["Cat1"%string])
  = [].
Proof.
  split; [left; reflexivity|].
  apply empty_selection_empty_view. left. reflexivity.
Defined.

(** X2.  Two filter steps can be taken in either order. *)
Theorem filters_commute (a b : FilterState) (t : DataFrame) :
  filter_view (filter_view t a) b = filter_view (filter_view t b) a.
Proof.
  rewrite !filter_view_filter, !filter_filter_and.
  apply filter_ext. intros r. apply andb_comm.
Qed.

(** X3.  Narrowing: a filter applied to the view of a wider filter (earlier
    start, later end, more regions, more categories) gives the view it gives
    on the table. *)
Theorem narrower_filter_on_wider_view (wide narrow : FilterState)
    (t : DataFrame) :
  start wide <= start narrow ->
  end_ narrow <= end_ wide ->
  incl (regions narrow) (regions wide) ->
  incl (categories narrow) (categories wide) ->
  filter_view (filter_view t wide) narrow = filter_view t narrow.
Proof.
  intros Hs He Hr Hc.
  rewrite !filter_view_filter, filter_filter_and.
  apply filter_ext. intros r.
  destruct (satisfiesb narrow r) eqn:En; [| apply andb_false_r].
  rewrite andb_true_r.
  apply satisfiesb_spec. apply satisfiesb_spec in En.
  destruct En as [H1 [H2 [H3 H4]]].
  unfold satisfies, on_or_after, on_or_before in *.
  destruct (OrderDate r) as [|x]; [contradiction|].
  repeat split; [lia | lia | now apply Hr | now apply Hc].
Qed.

Lemma narrower_filter_on_wider_view_witness :
  start all_of_scenario <= start (mkFilter (Pd.to_datetime feb10)
                                    (Pd.to_datetime feb10)
                                    ["West"%string] ["Cat1"%string]) /\
  filter_view (filter_view scenario all_of_scenario)
    (mkFilter (Pd.to_datetime feb10) (Pd.to_datetime feb10)
       ["West"%string] ["Cat1"%string])
  = filter_view scenario
      (mkFilter (Pd.to_datetime feb10) (Pd.to_datetime feb10)
         ["West"%string] ["Cat1"%string]).
Proof.
  split; [vm_compute; discriminate|].
  apply narrower_filter_on_wider_view.
  - vm_compute. discriminate.
  - vm_compute. discriminate.
  - intros x [<- | []]. right. now left.
  - intros x [<- | []]. now left.
Defined.

Lemma filter_view_In (fs : FilterState) (t : DataFrame) (r : Row) :
  In r (filter_view t fs) <-> In r t /\ satisfies fs r.
Proof.
  rewrite filter_view_filter, filter_In, satisfiesb_spec. tauto.
Qed.

(** X4.  The charts and sheets of a filtered view show selected keys only:
    every key of the Region roll-up of the view is a selected region, and
    every key of its Category roll-up a selected category. *)
Theorem rollup_keys_selected (fs : FilterState) (t : DataFrame) :
  incl (map fst (region_sales (filter_view t fs))) (regions fs) /\
  incl (map fst (Pd.groupby_sum Category (filter_view t fs)))
       (categories fs).
Proof.
  unfold region_sales. rewrite !groupby_sum_keys.
  split; intros k Hk; apply group_keys_cover in Hk;
    destruct Hk as [r [Hr <-]]; apply filter_view_In in Hr;
    destruct Hr as [_ [_ [_ [H3 H4]]]]; assumption.
Qed.

(** ** The widgets at their defaults *)

Lemma dt_min_NaT (s : Series datetime) :
  dt_min s = NaT <-> Forall (fun d => d = NaT) s.
Proof.
  induction s as [|d s IH]; simpl.
  - split; [constructor | reflexivity].
  - destruct d as [|x]; simpl.
    + rewrite IH. split; intros H.
      * now constructor.
      * now inversion H.
    + split; intros H.
      * destruct (dt_min s); discriminate.
      * inversion H; discriminate.
Qed.

Lemma dt_max_NaT (s : Series datetime) :
  dt_max s = NaT <-> Forall (fun d => d = NaT) s.
Proof.
  induction s as [|d s IH]; simpl.
  - split; [constructor | reflexivity].
  - destruct d as [|x]; simpl.
    + rewrite IH. split; intros H.
      * now constructor.
      * now inversion H.
    + split; intros H.
      * destruct (dt_max s); discriminate.
      * inversion H; discriminate.
Qed.

Lemma dt_min_le (s : Series datetime) (m x : Z) :
  dt_min s = Ts m -> In (Ts x) s -> m <= x.
Proof.
  revert m. induction s as [|d s IH]; simpl; intros m Hm Hin;
    [contradiction|].
  destruct d as [|y]; simpl in Hm.
  - destruct Hin as [Hd | Hin]; [discriminate | now apply IH].
  - destruct (dt_min s) as [|m'] eqn:E.
    + inversion Hm; subst. destruct Hin as [Hd | Hin].
      * inversion Hd. lia.
      * apply dt_min_NaT in E. rewrite Forall_forall in E.
        apply E in Hin. discriminate.
    + inversion Hm; subst. destruct Hin as [Hd | Hin].
      * inversion Hd. lia.
      * specialize (IH m' eq_refl Hin). lia.
Qed.

Lemma dt_max_ge (s : Series datetime) (top x : Z) :
  dt_max s = Ts top -> In (Ts x) s -> x <= top.
Proof.
  revert top. induction s as [|d s IH]; simpl; intros top Hm Hin;
    [contradiction|].
  destruct d as [|y]; simpl in Hm.
  - destruct Hin as [Hd | Hin]; [discriminate | now apply IH].
  - destruct (dt_max s) as [|m'] eqn:E.
    + inversion Hm; subst. destruct Hin as [Hd | Hin].
      * inversion Hd. lia.
      * apply dt_max_NaT in E. rewrite Forall_forall in E.
        apply E in Hin. discriminate.
    + inversion Hm; subst. destruct Hin as [Hd | Hin].
      * inversion Hd. lia.
      * specialize (IH m' eq_refl Hin). lia.
Qed.

Lemma dt_max_In (s : Series datetime) (top : Z) :
  dt_max s = Ts top -> In (Ts top) s.
Proof.
  revert top. induction s as [|d s IH]; simpl; intros top Hm;
    [discriminate|].
  destruct d as [|y]; simpl in Hm.
  - right. now apply IH.
  - destruct (dt_max s) as [|m'] eqn:E.
    + left. exact Hm.
    + inversion Hm; subst.
      destruct (Z.max_spec y m') as [[_ ->] | [_ ->]].
      * right. now apply IH.
      * now left.
Qed.

Lemma isin_unique (key : Row -> string) (t : DataFrame) (r : Row) :
  In r t ->
  existsb (String.eqb (key r)) (Pd.unique (Pd.col key t)) = true.
Proof.
  intros Hin. apply existsb_eqb_In, In_unique.
  unfold Pd.col. now apply in_map.
Qed.

Lemma default_widgets_inv (t : DataFrame) (w : Widgets) :
  default_widgets t = Some w ->
  exists lo top,
    dt_min (Pd.col OrderDate t) = Ts lo /\
    dt_max (Pd.col OrderDate t) = Ts top /\
    w = {| date_range := [lo / day_ns; top / day_ns];
           sel_regions := Pd.unique (Pd.col Region t);
           sel_categories := Pd.unique (Pd.col Category t) |}.
Proof.
  unfold default_widgets, min_date, max_date, ts_date.
  destruct (dt_min (Pd.col OrderDate t)) as [|lo]; simpl; [discriminate|].
  destruct (dt_max (Pd.col OrderDate t)) as [|top]; simpl; [discriminate|].
  intros H. inversion H. now exists lo, top.
Qed.

Lemma default_widgets_exist (t : DataFrame) :
  (exists r, In r t /\ OrderDate r <> NaT) ->
  exists w, default_widgets t = Some w.
Proof.
  intros [r [Hr Hd]].
  unfold default_widgets, min_date, max_date.
  destruct (dt_min (Pd.col OrderDate t)) as [|lo] eqn:Emin.
  { apply dt_min_NaT in Emin. rewrite Forall_forall in Emin.
    exfalso. apply Hd, Emin. unfold Pd.col. now apply in_map. }
  destruct (dt_max (Pd.col OrderDate t)) as [|top] eqn:Emax.
  { apply dt_max_NaT in Emax. rewrite Forall_forall in Emax.
    exfalso. apply Hd, Emax. unfold Pd.col. now apply in_map. }
  simpl. eexists. reflexivity.
Qed.

Lemma filter_all {A : Type} (l : list A) : filter (fun _ => true) l = l.
Proof. induction l as [|x l IH]; simpl; congruence. Qed.

(** X6.  With the widgets at their defaults the view holds exactly the rows
    dated on or before midnight of the last day of the table: every region
    and category passes, the start passes every date, and only rows without
    a date or later than that midnight are left out. *)
Theorem default_view (t : DataFrame) (w : Widgets) :
  default_widgets t = Some w ->
  exists fs top,
    filter_state w = Ok fs /\
    dt_max (Pd.col OrderDate t) = Ts top /\
    end_ fs = top / day_ns * day_ns /\
    filter_view t fs = filter (not_after (end_ fs)) t.
Proof.
  intros Hw. destruct (default_widgets_inv t w Hw)
    as [lo [top [Hmin [Hmax ->]]]].
  eexists. exists top. split; [reflexivity|].
  split; [exact Hmax|]. split; [reflexivity|].
  rewrite filter_view_filter. apply filter_ext_in. intros r Hr.
  unfold satisfiesb, not_after. simpl.
  rewrite (isin_unique Region t r Hr), (isin_unique Category t r Hr).
  rewrite !andb_true_r.
  destruct (OrderDate r) as [|x] eqn:Ed; [reflexivity|].
  replace (Pd.to_datetime (lo / day_ns) <=? x) with true; [reflexivity|].
  symmetry. apply Z.leb_le.
  assert (lo <= x).
  { apply (dt_min_le _ _ _ Hmin). unfold Pd.col. rewrite <- Ed.
    now apply in_map. }
  unfold Pd.to_datetime. fold day_ns.
  pose proof (Z.mul_div_le lo day_ns eq_refl). lia.
Qed.

Lemma default_view_witness :
  exists w, default_widgets scenario = Some w /\
  exists fs top,
    filter_state w = Ok fs /\
    dt_max (Pd.col OrderDate scenario) = Ts top /\
    end_ fs = top / day_ns * day_ns /\
    filter_view scenario fs = filter (not_after (end_ fs)) scenario.
Proof.
  eexists. split; [reflexivity|].
  apply default_view. reflexivity.
Defined.

(** X7.  On a table whose rows all have a Region, a Category and a date
    without a time of day, the widgets at their defaults select the whole
    table. *)
Theorem default_view_whole_table (t : DataFrame) :
  t <> [] ->
  (forall r, In r t -> at_midnight (OrderDate r)) ->
  exists w fs,
    default_widgets t = Some w /\
    filter_state w = Ok fs /\
    filter_view t fs = t.
Proof.
  intros Hne Hmid.
  destruct (default_widgets_exist t) as [w Hw].
  { destruct t as [|r t']; [congruence|].
    exists r. split; [now left|].
    specialize (Hmid r (or_introl eq_refl)).
    destruct (OrderDate r); [contradiction | discriminate]. }
  destruct (default_widgets_inv t w Hw) as [lo [top [Hmin [Hmax Hweq]]]].
  subst w. eexists. eexists. split; [exact Hw|].
  split; [reflexivity|].
  rewrite filter_view_filter.
  rewrite <- (filter_ext_in (fun _ => true)).
  - apply filter_all.
  - intros r Hr. symmetry.
    unfold satisfiesb. simpl.
    rewrite (isin_unique Region t r Hr), (isin_unique Category t r Hr).
    rewrite !andb_true_r.
    pose proof (Hmid r Hr) as Hm. unfold at_midnight in Hm.
    destruct (OrderDate r) as [|x] eqn:Ed; [contradiction|].
    assert (Hx : In (Ts x) (Pd.col OrderDate t)).
    { unfold Pd.col. rewrite <- Ed. now apply in_map. }
    pose proof (dt_min_le _ _ _ Hmin Hx) as Hlo.
    pose proof (dt_max_ge _ _ _ Hmax Hx) as Hhi.
    unfold Pd.to_datetime. fold day_ns.
    pose proof (Z.mul_div_le lo day_ns eq_refl).
    assert (x / day_ns <= top / day_ns)
      by (apply Z.div_le_mono; [reflexivity | exact Hhi]).
    assert (x = day_ns * (x / day_ns))
      by (apply Z.div_exact; [discriminate | exact Hm]).
    revert H H0 H1.
    generalize (lo / day_ns) (x / day_ns) (top / day_ns).
    unfold day_ns. intros a b c H H0 H1.
    apply andb_true_iff. split; apply Z.leb_le; lia.
Qed.

Lemma default_view_whole_table_witness :
  scenario <> [] /\
  exists w fs,
    default_widgets scenario = Some w /\
    filter_state w = Ok fs /\
    filter_view scenario fs = scenario.
Proof.
  split; [discriminate|].
  apply default_view_whole_table.
  - discriminate.
  - intros r [<- | [<- | [<- | []]]]; reflexivity.
Defined.

(** ** Roll-ups, continued *)

Lemma sort_sorted_id {A : Type} (le : A -> A -> bool) (l : list A) :
  StronglySorted (fun a b => le a b = true) l -> Pd.sort le l = l.
Proof.
  induction 1 as [|x l Hs IH Hx]; simpl; [reflexivity|].
  rewrite IH. destruct l as [|y l']; simpl; [reflexivity|].
  inversion Hx as [|? ? Hxy _]; subst. now rewrite Hxy.
Qed.

Lemma key_lt_leb (a b : string) : key_lt a b -> String.leb a b = true.
Proof.
  unfold key_lt, String.ltb, String.leb.
  destruct (String.compare a b); congruence.
Qed.

Lemma sorted_by_key (s : Indexed) :
  StronglySorted key_lt (map fst s) ->
  StronglySorted (fun a b => String.leb (fst a) (fst b) = true) s.
Proof.
  induction s as [|e s IH]; simpl; intros H; [constructor|].
  apply StronglySorted_inv in H. destruct H as [Hs He].
  constructor; [now apply IH|].
  rewrite Forall_map in He.
  eapply Forall_impl; [| exact He]. intros a. apply key_lt_leb.
Qed.

(** X9.  The monthly series has one entry per month bucket of the view
    (buckets being text, as [load_data] derives them), in strictly ascending
    order of the bucket; the [sort_index()] of line 90 finds the group-by
    result already in order and leaves it as it is. *)
Theorem monthly_sales_series (view : DataFrame) :
  monthly_sales view = Pd.groupby_sum order_month view /\
  StronglySorted key_lt (map fst (monthly_sales view)) /\
  (forall k, In k (map fst (monthly_sales view)) <->
             exists r, In r view /\ order_month r = k).
Proof.
  assert (E : monthly_sales view = Pd.groupby_sum order_month view).
  { unfold monthly_sales, Pd.sort_index. apply sort_sorted_id.
    apply sorted_by_key. rewrite groupby_sum_keys.
    apply group_keys_ascending. }
  rewrite E, groupby_sum_keys.
  split; [reflexivity|].
  split; [apply group_keys_ascending|].
  intros k. apply group_keys_cover.
Qed.

(** ** Orders *)

Lemma filter_neq_length (x : string) (l : list string) :
  NoDup l ->
  List.length (filter (fun y => negb (String.eqb x y)) l)
  = if existsb (String.eqb x) l then (List.length l - 1)%nat
    else List.length l.
Proof.
  induction 1 as [|y l Hnotin Hnd IH]; simpl; [reflexivity|].
  destruct (String.eqb_spec x y) as [-> | Hne]; simpl.
  - assert (E : existsb (String.eqb y) l = false).
    { destruct (existsb (String.eqb y) l) eqn:E'; [| reflexivity].
      apply existsb_eqb_In in E'. contradiction. }
    rewrite E in IH. rewrite IH. lia.
  - rewrite IH. destruct (existsb (String.eqb x) l) eqn:E; [| reflexivity].
    apply existsb_eqb_In in E. destruct l; [contradiction | simpl; lia].
Qed.

Lemma existsb_unique (x : string) (s : list string) :
  existsb (String.eqb x) (Pd.unique s) = existsb (String.eqb x) s.
Proof.
  destruct (existsb (String.eqb x) s) eqn:E.
  - apply existsb_eqb_In, In_unique. now apply existsb_eqb_In.
  - destruct (existsb (String.eqb x) (Pd.unique s)) eqn:E'; [| reflexivity].
    apply (proj1 (existsb_eqb_In _ _)) in E'.
    apply (proj1 (In_unique _ _)) in E'.
    apply (proj2 (existsb_eqb_In _ _)) in E'. congruence.
Qed.

Lemma nunique_cons (x : string) (s : list string) :
  Pd.nunique (x :: s)
  = if existsb (String.eqb x) s then Pd.nunique s else Pd.nunique s + 1.
Proof.
  unfold Pd.nunique. simpl Pd.unique. simpl List.length.
  rewrite filter_neq_length by apply NoDup_unique.
  rewrite existsb_unique.
  destruct (existsb (String.eqb x) s) eqn:E; [| lia].
  apply existsb_eqb_In, In_unique in E.
  destruct (Pd.unique s); [contradiction | simpl; lia].
Qed.

(** X10.  Orders are counted once: a further record adds one to the number
    of orders when its order id is new to the view, and nothing when the
    view already has a record of that order. *)
Theorem total_orders_counts_once (r : Row) (view : DataFrame) :
  total_orders (r :: view)
  = if existsb (String.eqb (OrderID r)) (map OrderID view)
    then total_orders view
    else total_orders view + 1.
Proof.
  unfold total_orders, Pd.col. simpl map. apply nunique_cons.
Qed.

(** X11.  When every record has an Order ID, the number of orders is at
    most the number of records, and it is 0 for the empty view only. *)
Theorem total_orders_bounds (view : DataFrame) :
  0 <= total_orders view <= Z.of_nat (List.length view) /\
  (total_orders view = 0 <-> view = []).
Proof.
  unfold total_orders, Pd.col.
  induction view as [|r view [IH1 IH2]].
  - split; [split; reflexivity | tauto].
  - simpl map. rewrite nunique_cons.
    destruct (existsb (String.eqb (OrderID r)) (map OrderID view)) eqn:E.
    + split; [simpl List.length; lia|].
      split; [| discriminate]. intros H0.
      apply IH2 in H0. subst. discriminate.
    + split; [simpl List.length; lia|].
      split; [lia | discriminate].
Qed.

(** ** Independence of the row order *)

Lemma key_lt_irrefl (a : string) : ~ key_lt a a.
Proof.
  unfold key_lt, String.ltb. rewrite compare_refl. discriminate.
Qed.

Lemma key_lt_trans (a b c : string) : key_lt a b -> key_lt b c -> key_lt a c.
Proof.
  unfold key_lt, String.ltb.
  destruct (String.compare a b) eqn:Eab; try discriminate.
  destruct (String.compare b c) eqn:Ebc; try discriminate.
  intros _ _.
  apply String_as_OT.cmp_lt in Eab, Ebc.
  pose proof (String_as_OT.lt_trans _ _ _ Eab Ebc) as H.
  apply String_as_OT.cmp_lt in H. unfold String_as_OT.cmp in H.
  now rewrite H.
Qed.

(** Two strictly ascending lists with the same elements are equal. *)
Lemma ascending_unique (l1 l2 : list string) :
  StronglySorted key_lt l1 -> StronglySorted key_lt l2 ->
  (forall x, In x l1 <-> In x l2) -> l1 = l2.
Proof.
  intros H1. revert l2.
  induction H1 as [|a l1 Hs1 IH Ha]; intros l2 H2 Hsame.
  - destruct l2 as [|b l2]; [reflexivity|].
    exfalso. apply (proj2 (Hsame b)). now left.
  - destruct H2 as [|b l2 Hs2 Hb].
    { exfalso. apply (proj1 (Hsame a)). now left. }
    rewrite Forall_forall in Ha, Hb.
    assert (Eab : a = b).
    { destruct (proj1 (Hsame a) (or_introl eq_refl)) as [E | Hin];
        [now symmetry|].
      destruct (proj2 (Hsame b) (or_introl eq_refl)) as [E | Hin'];
        [exact E|].
      exfalso. apply (key_lt_irrefl a).
      apply (key_lt_trans a b a); [now apply Ha | now apply Hb]. }
    subst b. f_equal. apply IH; [exact Hs2|].
    intros x. split; intros Hx.
    + destruct (proj1 (Hsame x) (or_intror Hx)) as [E | Hin]; [| exact Hin].
      subst x. exfalso. apply (key_lt_irrefl a). now apply Ha.
    + destruct (proj2 (Hsame x) (or_intror Hx)) as [E | Hin]; [| exact Hin].
      subst x. exfalso. apply (key_lt_irrefl a). now apply Hb.
Qed.

Lemma group_keys_Permutation (s s' : list string) :
  Permutation s s' -> Pd.group_keys s = Pd.group_keys s'.
Proof.
  intros Hp. apply ascending_unique; try apply group_keys_ascending.
  intros x. rewrite !In_group_keys. split.
  - now apply Permutation_in.
  - apply Permutation_in. now symmetry.
Qed.

(** X13.  The number of orders and the keys of the roll-ups do not depend
    on the order of the records: on two views with the same records (each
    with its keys present) in different order the numbers of orders agree,
    and each group-by has the same keys in the same order. *)
Theorem aggregates_ignore_row_order (key : Row -> string)
    (view view' : DataFrame) :
  Permutation view view' ->
  total_orders view = total_orders view' /\
  map fst (Pd.groupby_sum key view) = map fst (Pd.groupby_sum key view').
Proof.
  intros Hp. split.
  - unfold total_orders, Pd.nunique, Pd.col. f_equal.
    apply Permutation_length, NoDup_Permutation; try apply NoDup_unique.
    intros x. rewrite !In_unique. split.
    + apply Permutation_in. now apply Permutation_map.
    + apply Permutation_in. symmetry. now apply Permutation_map.
  - rewrite !groupby_sum_keys. apply group_keys_Permutation.
    unfold Pd.col. now apply Permutation_map.
Qed.

Lemma aggregates_ignore_row_order_witness :
  Permutation scenario (rev scenario) /\
  total_orders scenario = total_orders (rev scenario) /\
  map fst (Pd.groupby_sum Product scenario)
  = map fst (Pd.groupby_sum Product (rev scenario)).
Proof.
  split; [apply Permutation_rev|].
  apply aggregates_ignore_row_order, Permutation_rev.
Defined.

(** ** Growth, continued *)

Lemma last_two {A : Type} (l : list A) :
  (2 <= List.length l)%nat ->
  exists earlier prev last, l = earlier ++ [prev; last].
Proof.
  induction l as [|a l IH]; simpl; intros H; [lia|].
  destruct l as [|b l]; [simpl in H; lia|].
  destruct l as [|c l].
  - now exists [], a, b.
  - destruct IH as [earlier [prev [last E]]]; [simpl; lia|].
    exists (a :: earlier), prev, last. now rewrite E.
Qed.

Lemma mom_growth_last_two (earlier : Indexed) (prev last : string * Q) :
  mom_growth (earlier ++ [prev; last])
  = if Np.is_zero (snd prev) then Ok Np.nan
    else Ok (Np.Num ((snd last - snd prev) / snd prev * 100)%Q).
Proof.
  unfold mom_growth. rewrite length_app. simpl List.length.
  replace (2 <=? List.length earlier + 2)%nat with true
    by (symmetry; apply Nat.leb_le; lia).
  rewrite iloc_neg_prev, iloc_neg_last. simpl.
  destruct (Np.is_zero (snd prev)) eqn:E; simpl; [reflexivity|].
  unfold Np.truediv. now rewrite E.
Qed.

Lemma mom_growth_total (series : Indexed) :
  exists v, mom_growth series = Ok v.
Proof.
  destruct (Nat.leb_spec 2 (List.length series)) as [H | H].
  - destruct (last_two series H) as [earlier [prev [last ->]]].
    rewrite mom_growth_last_two.
    destruct (Np.is_zero (snd prev)); eexists; reflexivity.
  - unfold mom_growth.
    replace (2 <=? List.length series)%nat with false
      by (symmetry; apply Nat.leb_gt; exact H).
    eexists. reflexivity.
Qed.

(** X14.  Growth looks at the last two months only: earlier entries of the
    series, and the month keys themselves, do not change it. *)
Theorem mom_growth_only_last_two (earlier : Indexed)
    (prev last : string * Q) (k1 k2 : string) :
  mom_growth (earlier ++ [prev; last])
  = mom_growth [(k1, snd prev); (k2, snd last)].
Proof.
  rewrite mom_growth_last_two.
  change [(k1, snd prev); (k2, snd last)]
    with ([] ++ [(k1, snd prev); (k2, snd last)]).
  now rewrite mom_growth_last_two.
Qed.

(** X15.  After a month of positive revenue the growth is a number whose
    sign tells how the last month compares: it is positive exactly when the
    last month's revenue is above the previous month's, and zero exactly
    when the two are equal. *)
Theorem mom_growth_sign (earlier : Indexed) (prev last : string * Q) :
  (0 < snd prev)%Q ->
  exists g,
    mom_growth (earlier ++ [prev; last]) = Ok (Np.Num g) /\
    ((0 < g)%Q <-> (snd prev < snd last)%Q) /\
    ((g == 0)%Q <-> (snd last == snd prev)%Q).
Proof.
  intros Hpos.
  assert (Hnz : ~ (snd prev == 0)%Q).
  { intros E. rewrite E in Hpos. now apply Qlt_irrefl in Hpos. }
  eexists. split.
  - rewrite mom_growth_last_two.
    apply is_zero_false in Hnz. rewrite Hnz. reflexivity.
  - set (p := snd prev) in *. set (l := snd last).
    assert (Hk : (0 < 100 / p)%Q).
    { apply Qlt_shift_div_l; [exact Hpos|]. ring_simplify. reflexivity. }
    assert (E : ((l - p) / p * 100 == (l - p) * (100 / p))%Q)
      by (field; exact Hnz).
    rewrite E. split.
    + rewrite (Qlt_minus_iff p l). fold (Qminus l p). split; intros H.
      * apply (Qmult_lt_r _ _ (100 / p)%Q Hk).
        now rewrite Qmult_0_l.
      * apply (Qmult_lt_r _ _ (100 / p)%Q Hk) in H.
        now rewrite Qmult_0_l in H.
    + split; intros H.
      * apply Qmult_integral in H. destruct H as [H | H].
        -- rewrite <- (Qplus_0_l p). rewrite <- H. ring.
        -- rewrite H in Hk. now apply Qlt_irrefl in Hk.
      * rewrite H. ring.
Qed.

Lemma mom_growth_sign_witness :
  (0 < 150)%Q /\
  exists g,
    mom_growth ([] ++ [("2024-01"%string, 150%Q); ("2024-02"%string, 200%Q)])
    = Ok (Np.Num g) /\
    ((0 < g)%Q <-> (150 < 200)%Q) /\
    ((g == 0)%Q <-> (200 == 150)%Q).
Proof.
  split; [reflexivity|].
  apply (mom_growth_sign [] ("2024-01"%string, 150%Q)
           ("2024-02"%string, 200%Q)).
  reflexivity.
Defined.

(** ** Top products, continued *)

(** X16.  With at most five products in the view the table of top products
    lists every product of the view; and in every case its first row holds
    a largest sum of the whole grouping. *)
Theorem top_products_complete_and_first (sort_values : Indexed -> Indexed)
    (view : DataFrame) :
  Pd.sorts_values_descending sort_values ->
  ((List.length (Pd.groupby_sum Product view) <= 5)%nat ->
   Permutation (top_products sort_values view)
               (Pd.groupby_sum Product view)) /\
  (forall e rest,
      top_products sort_values view = e :: rest ->
      forall g, In g (Pd.groupby_sum Product view) -> (snd g <= snd e)%Q).
Proof.
  intros [Hperm Hdesc].
  unfold top_products, Pd.reset_index, Pd.head.
  set (grouping := Pd.groupby_sum Product view).
  split.
  - intros Hlen. rewrite firstn_all2; [apply Hperm|].
    rewrite (Permutation_length (Hperm grouping)). exact Hlen.
  - intros e rest Htop g Hg.
    apply (Permutation_in _ (Permutation_sym (Hperm grouping))) in Hg.
    pose proof (Hdesc grouping) as Hd. unfold Pd.Descending in Hd.
    destruct (sort_values grouping) as [|x l]; [contradiction|].
    simpl in Htop. inversion Htop; subst.
    apply StronglySorted_inv in Hd. destruct Hd as [_ Hx].
    destruct Hg as [<- | Hg]; [apply Qle_refl|].
    rewrite Forall_forall in Hx. now apply Hx.
Qed.

Lemma top_products_complete_and_first_witness :
  Pd.sorts_values_descending Pd.sort_values_stable /\
  (List.length (Pd.groupby_sum Product scenario) <= 5)%nat /\
  Permutation (top_products Pd.sort_values_stable scenario)
              (Pd.groupby_sum Product scenario).
Proof.
  split; [exact sort_values_stable_promise|].
  split; [simpl; lia|].
  apply (proj1 (top_products_complete_and_first Pd.sort_values_stable
                  scenario sort_values_stable_promise)).
  simpl. lia.
Defined.

(** ** One run of the pipeline *)

(** X18.  When no record passes the filter the run still completes, with
    every figure at its zero: revenue 0, no orders, average order value 0,
    no monthly entry, growth not available, no top product, no region, and
    an export of four sheets that hold their header rows only. *)
Theorem dashboard_on_empty_view (sort_values : Indexed -> Indexed)
    (t : DataFrame) (w : Widgets) (fs : FilterState) :
  Pd.sorts_values_descending sort_values ->
  filter_state w = Ok fs ->
  (forall r, In r t -> ~ satisfies fs r) ->
  dashboard sort_values t w
  = Ok {| d_view := [];
          d_total_revenue := 0;
          d_total_orders := 0;
          d_avg_order_value := Np.Num 0;
          d_monthly_sales := [];
          d_mom_growth := Np.nan;
          d_top_products := [];
          d_region_sales := [];
          d_excel :=
            [ Xl.mkSheet "raw_data" frame_columns [];
              Xl.mkSheet "product_sales" ["Product"; "Sales"]%string [];
              Xl.mkSheet "category_sales" ["Category"; "Sales"]%string [];
              Xl.mkSheet "region_sales" ["Region"; "Sales"]%string [] ] |}.
Proof.
  intros [Hperm _] Hfs Hnone.
  assert (Hview : filter_view t fs = []).
  { rewrite filter_view_filter.
    induction t as [|r t IH]; simpl; [reflexivity|].
    destruct (satisfiesb fs r) eqn:E.
    - apply satisfiesb_spec in E. exfalso.
      apply (Hnone r); [now left | exact E].
    - apply IH. intros r' Hr'. apply Hnone. now right. }
  unfold dashboard. rewrite Hfs. simpl bind. cbv zeta. rewrite Hview.
  change (mom_growth (monthly_sales [])) with (Ok Np.nan).
  change (excel_data [])
    with (Ok [ Xl.mkSheet "raw_data" frame_columns [];
               Xl.mkSheet "product_sales" ["Product"; "Sales"]%string [];
               Xl.mkSheet "category_sales" ["Category"; "Sales"]%string [];
               Xl.mkSheet "region_sales" ["Region"; "Sales"]%string [] ]).
  simpl bind.
  unfold top_products, Pd.reset_index, Pd.head.
  change (Pd.groupby_sum Product []) with (@nil (string * Q)).
  rewrite (Permutation_nil (Permutation_sym (Hperm []))).
  reflexivity.
Qed.

Lemma dashboard_on_empty_view_witness :
  Pd.sorts_values_descending Pd.sort_values_stable /\
  filter_state (mkWidgets [feb10; jan5] ["East"%string] ["Cat1"%string])
  = Ok {| start := Pd.to_datetime feb10; end_ := Pd.to_datetime jan5;
          regions := ["East"%string]; categories := ["Cat1"%string] |} /\
  d_excel_rows_of
    (dashboard Pd.sort_values_stable scenario
       (mkWidgets [feb10; jan5] ["East"%string] ["Cat1"%string]))
  = Some [0; 0; 0; 0]%nat.
Proof.
  split; [exact sort_values_stable_promise|].
  split; [reflexivity|].
  rewrite (dashboard_on_empty_view Pd.sort_values_stable scenario
             (mkWidgets [feb10; jan5] ["East"%string] ["Cat1"%string]) _
             sort_values_stable_promise eq_refl).
  - reflexivity.
  - intros r Hr Hs. apply satisfiesb_spec in Hs.
    destruct Hr as [<- | [<- | [<- | []]]]; vm_compute in Hs; discriminate.
Defined.

(** ** Loading, continued *)

Lemma names_convert (parse : string -> option datetime) (pd : string)
    (file : Loader.TextFile) :
  map fst (map (Loader.convert parse pd) file) = map fst file.
Proof. rewrite map_map. reflexivity. Qed.

Lemma getitem_add_column (t : Loader.Frame) (name : string)
    (c : Loader.column) :
  Loader.has_column name t = false ->
  Loader.getitem (Loader.add_column t name c) name = Ok c.
Proof.
  unfold Loader.add_column.
  induction t as [|[n c0] t IH]; simpl.
  - intros _. now rewrite String.eqb_refl.
  - destruct (String.eqb name n); simpl; [discriminate | exact IH].
Qed.

(** X20.  A month column of the file is passed through: when the file has
    an "order_month" column (and an "Order Date" column), loading cannot
    raise, whatever the dates are, and the frame has the columns of the file
    and no other. *)
Theorem load_data_passes_month_column (parse : string -> option datetime)
    (file : Loader.TextFile) :
  Loader.has_column "Order Date" file = true ->
  Loader.has_column "order_month" file = true ->
  exists t,
    Loader.load_data parse file = Ok t /\
    map fst t = map fst file.
Proof.
  intros Hd Hm. unfold Loader.load_data, Loader.read_csv.
  rewrite Hd. simpl bind. rewrite has_column_convert, Hm. simpl.
  eexists. split; [reflexivity | apply names_convert].
Qed.

Lemma load_data_passes_month_column_witness :
  Loader.has_column "Order Date" file_bad_date = true /\
  Loader.has_column "order_month" file_bad_date = true /\
  exists t,
    Loader.load_data Loader.iso_date file_bad_date = Ok t /\
    map fst t = map fst file_bad_date.
Proof.
  split; [reflexivity|]. split; [reflexivity|].
  apply load_data_passes_month_column; reflexivity.
Defined.

(** X21.  A missing month column is derived: when the file has no
    "order_month" column, has at least one row and all its order dates
    parse, the frame has the columns of the file followed by "order_month",
    which holds the month bucket of each parsed date, row by row. *)
Theorem load_data_derives_month_column (parse : string -> option datetime)
    (file : Loader.TextFile) (cells : list string) (ds : list datetime) :
  Loader.has_column "order_month" file = false ->
  text_column file "Order Date" = Some cells ->
  cells <> [] ->
  Forall2 (fun c d => parse c = Some d) cells ds ->
  exists t,
    Loader.load_data parse file = Ok t /\
    map fst t = map fst file ++ ["order_month"%string] /\
    Loader.getitem t "Order Date" = Ok (Loader.DatetimeCol ds) /\
    Loader.getitem t "order_month"
    = Ok (Loader.ObjectCol (map Loader.period_M_str ds)).
Proof.
  intros Hm Hcol Hne Hparse.
  apply parse_all_Some in Hparse.
  pose proof (getitem_convert parse _ _ _ Hcol) as Hget.
  unfold Loader.date_column in Hget.
  destruct cells as [|c0 cells0]; [congruence|].
  rewrite Hparse in Hget.
  assert (Hd : Loader.has_column "Order Date" file = true).
  { destruct (Loader.has_column "Order Date" file) eqn:E; [reflexivity|].
    apply text_column_has in E. congruence. }
  unfold Loader.load_data, Loader.read_csv.
  rewrite Hd. simpl bind. rewrite has_column_convert, Hm. simpl negb.
  cbv iota. rewrite Hget. simpl bind.
  eexists. split; [reflexivity|].
  split; [| split].
  - unfold Loader.add_column. rewrite map_app, names_convert. reflexivity.
  - unfold Loader.add_column. now apply getitem_app.
  - apply getitem_add_column. now rewrite has_column_convert.
Qed.

Lemma load_data_derives_month_column_witness :
  Loader.has_column "order_month" file_two_columns = false /\
  exists t,
    Loader.load_data Loader.iso_date file_two_columns = Ok t /\
    map fst t = map fst file_two_columns ++ ["order_month"%string] /\
    Loader.getitem t "Order Date"
    = Ok (Loader.DatetimeCol [Ts (Pd.to_datetime jan5);
                              Ts (Pd.to_datetime feb10)]) /\
    Loader.getitem t "order_month"
    = Ok (Loader.ObjectCol
            (map Loader.period_M_str [Ts (Pd.to_datetime jan5);
                                      Ts (Pd.to_datetime feb10)])).
Proof.
  split; [reflexivity|].
  apply (load_data_derives_month_column Loader.iso_date file_two_columns
           ["2024-01-05"; "2024-02-10"]%string).
  - reflexivity.
  - reflexivity.
  - discriminate.
  - repeat constructor.
Defined.

(** ** Month buckets *)

Lemma doe_bounds (d : Z) : 0 <= doe_of d <= 146096.
Proof. unfold doe_of, era_of. Z.to_euclidean_division_equations; lia. Qed.

Lemma yoe_bounds (doe : Z) : 0 <= doe <= 146096 -> 0 <= yoe_of doe <= 399.
Proof. unfold yoe_of. intros. Z.to_euclidean_division_equations; lia. Qed.

Lemma doy_bounds (doe : Z) : 0 <= doe <= 146096 -> 0 <= doy_of doe <= 365.
Proof.
  unfold doy_of, yoe_of. intros. Z.to_euclidean_division_equations; lia.
Qed.

Lemma mp_bounds (doe : Z) : 0 <= doe <= 146096 -> 0 <= mp_of doe <= 11.
Proof.
  intros H. pose proof (doy_bounds doe H). unfold mp_of.
  Z.to_euclidean_division_equations; lia.
Qed.

Lemma yoe_mono (a b : Z) :
  0 <= a <= b -> b <= 146096 -> yoe_of a <= yoe_of b.
Proof.
  intros. unfold yoe_of. apply Z.div_le_mono; [lia|].
  Z.to_euclidean_division_equations; lia.
Qed.

Lemma civil_from_days_parts (d : Z) :
  Loader.civil_from_days d
  = let mp := mp_of (doe_of d) in
    let m := if mp <? 10 then mp + 3 else mp - 9 in
    let y := yoe_of (doe_of d) + era_of d * 400 in
    (if m <=? 2 then y + 1 else y, m,
     doy_of (doe_of d) - (153 * mp + 2) / 5 + 1).
Proof. reflexivity. Qed.

(** Counted from March, the month count is linear in era, year and month. *)
Lemma month_index_parts (d : Z) :
  month_index d
  = 12 * (yoe_of (doe_of d) + era_of d * 400) + mp_of (doe_of d) + 3.
Proof.
  unfold month_index. rewrite civil_from_days_parts. cbv beta iota zeta.
  pose proof (mp_bounds _ (doe_bounds d)) as Hmp.
  destruct (Z.ltb_spec (mp_of (doe_of d)) 10) as [H | H].
  - destruct (Z.leb_spec (mp_of (doe_of d) + 3) 2); lia.
  - destruct (Z.leb_spec (mp_of (doe_of d) - 9) 2); lia.
Qed.

Lemma month_index_mono (a b : Z) : a <= b -> month_index a <= month_index b.
Proof.
  intros Hab. rewrite !month_index_parts.
  pose proof (doe_bounds a) as Ha. pose proof (doe_bounds b) as Hb.
  pose proof (yoe_bounds _ Ha) as Hya. pose proof (yoe_bounds _ Hb) as Hyb.
  pose proof (mp_bounds _ Ha) as Hma. pose proof (mp_bounds _ Hb) as Hmb.
  assert (Hera : era_of a <= era_of b)
    by (unfold era_of; apply Z.div_le_mono; lia).
  destruct (Z.eq_dec (era_of a) (era_of b)) as [Ee | Ne]; [| lia].
  assert (Hdoe : doe_of a <= doe_of b) by (unfold doe_of; lia).
  pose proof (yoe_mono (doe_of a) (doe_of b)) as Hy.
  destruct (Z.eq_dec (yoe_of (doe_of a)) (yoe_of (doe_of b))) as [Ey | Ny];
    [| lia].
  assert (Hmp : mp_of (doe_of a) <= mp_of (doe_of b)).
  { unfold mp_of, doy_of. rewrite Ey.
    apply Z.div_le_mono; lia. }
  lia.
Qed.

Lemma period_M_str_index (ns : Z) :
  Loader.period_M_str (Ts ns)
  = bucket_of_index (month_index (ns / Loader.ns_per_day)).
Proof.
  unfold Loader.period_M_str, bucket_of_index, month_index.
  rewrite civil_from_days_parts. cbv beta iota zeta.
  set (d := ns / Loader.ns_per_day).
  pose proof (mp_bounds _ (doe_bounds d)) as Hmp.
  set (m := if mp_of (doe_of d) <? 10 then mp_of (doe_of d) + 3
            else mp_of (doe_of d) - 9).
  assert (Hm : 1 <= m <= 12).
  { unfold m. destruct (Z.ltb_spec (mp_of (doe_of d)) 10); lia. }
  set (y := if m <=? 2 then yoe_of (doe_of d) + era_of d * 400 + 1
            else yoe_of (doe_of d) + era_of d * 400).
  replace ((12 * y + m - 1) / 12) with y
    by (Z.to_euclidean_division_equations; lia).
  replace ((12 * y + m - 1) mod 12 + 1) with m
    by (Z.to_euclidean_division_equations; lia).
  reflexivity.
Qed.

Lemma buckets_ascend_adjacent (n : nat) (i0 i : Z) :
  buckets_ascend n i0 = true ->
  i0 <= i < i0 + Z.of_nat n ->
  key_lt (bucket_of_index i) (bucket_of_index (i + 1)).
Proof.
  revert i0. induction n as [|n IH]; intros i0 H Hi; [lia|].
  cbn [buckets_ascend] in H.
  destruct (String.ltb (bucket_of_index i0) (bucket_of_index (i0 + 1)))
    eqn:E; [| discriminate].
  destruct (Z.eq_dec i i0) as [-> | Hne]; [exact E|].
  apply (IH (i0 + 1)); [exact H | lia].
Qed.

Lemma leb_refl (x : string) : String.leb x x = true.
Proof. unfold String.leb. now rewrite compare_refl. Qed.

Lemma buckets_monotone (lo hi : Z) :
  (forall i, lo <= i < hi ->
             key_lt (bucket_of_index i) (bucket_of_index (i + 1))) ->
  forall i j, lo <= i -> i <= j -> j <= hi ->
    String.leb (bucket_of_index i) (bucket_of_index j) = true /\
    (i < j -> key_lt (bucket_of_index i) (bucket_of_index j)).
Proof.
  intros Hadj i j Hlo Hij Hhi.
  replace j with (i + Z.of_nat (Z.to_nat (j - i))) in * by lia.
  induction (Z.to_nat (j - i)) as [|k IH].
  - rewrite Z.add_0_r. split; [apply leb_refl | lia].
  - destruct IH as [IH1 IH2]; [lia | lia|].
    assert (Hstep : key_lt (bucket_of_index (i + Z.of_nat k))
                      (bucket_of_index (i + Z.of_nat (S k)))).
    { replace (i + Z.of_nat (S k)) with (i + Z.of_nat k + 1) by lia.
      apply Hadj. lia. }
    assert (Hlt : key_lt (bucket_of_index i)
                    (bucket_of_index (i + Z.of_nat (S k)))).
    { destruct k as [|k'].
      - rewrite Z.add_0_r in Hstep. exact Hstep.
      - eapply key_lt_trans; [apply IH2; lia | exact Hstep]. }
    split; [now apply key_lt_leb | intros _; exact Hlt].
Qed.

Lemma buckets_ascend_in_range :
  buckets_ascend (Z.to_nat (month_index last_day - month_index first_day))
                 (month_index first_day) = true.
Proof. vm_compute. reflexivity. Qed.

(** X22.  Month buckets sort like the calendar: for two order dates that a
    [datetime64[ns]] value can hold, the bucket of the earlier one is never
    above the bucket of the later one in text order, and dates of
    different months get different buckets.  So the text order in which
    the monthly series comes is the order of the months in time. *)
Theorem month_buckets_chronological (t1 t2 : Z) :
  in_range t1 -> in_range t2 -> t1 <= t2 ->
  String.leb (Loader.period_M_str (Ts t1)) (Loader.period_M_str (Ts t2))
  = true /\
  (month_index (t1 / day_ns) < month_index (t2 / day_ns) ->
   key_lt (Loader.period_M_str (Ts t1)) (Loader.period_M_str (Ts t2))).
Proof.
  unfold in_range. intros H1 H2 H12.
  rewrite !period_M_str_index.
  change Loader.ns_per_day with day_ns.
  assert (Hd : t1 / day_ns <= t2 / day_ns)
    by (apply Z.div_le_mono; [reflexivity | exact H12]).
  assert (Hlo : first_day <= t1 / day_ns)
    by (apply Z.div_le_lower_bound; [reflexivity | lia]).
  assert (Hhi : t2 / day_ns <= last_day).
  { assert (t2 / day_ns < last_day + 1); [| lia].
    apply Z.div_lt_upper_bound; [reflexivity | lia]. }
  apply (buckets_monotone (month_index first_day) (month_index last_day)).
  - intros i Hi.
    apply (buckets_ascend_adjacent _ _ _ buckets_ascend_in_range).
    rewrite Z2Nat.id; [lia|].
    pose proof (month_index_mono first_day last_day). unfold first_day,
      last_day in *. lia.
  - now apply month_index_mono.
  - now apply month_index_mono.
  - apply month_index_mono. lia.
Qed.

Lemma month_buckets_chronological_witness :
  in_range (Pd.to_datetime jan5) /\
  in_range (Pd.to_datetime feb10) /\
  Pd.to_datetime jan5 <= Pd.to_datetime feb10 /\
  String.leb (Loader.period_M_str (Ts (Pd.to_datetime jan5)))
             (Loader.period_M_str (Ts (Pd.to_datetime feb10))) = true.
Proof.
  assert (R1 : in_range (Pd.to_datetime jan5))
    by (split; vm_compute; discriminate || reflexivity).
  assert (R2 : in_range (Pd.to_datetime feb10))
    by (split; vm_compute; discriminate || reflexivity).
  assert (L : Pd.to_datetime jan5 <= Pd.to_datetime feb10)
    by (vm_compute; discriminate).
  split; [exact R1|]. split; [exact R2|]. split; [exact L|].
  exact (proj1 (month_buckets_chronological _ _ R1 R2 L)).
Defined.

(** ** Options of the multiselects *)

(** X23.  When every record has a Region and a Category, each multiselect
    offers every value of its column once, in ascending order, and starts
    with all of them selected. *)
Theorem multiselect_options (t : DataFrame) :
  StronglySorted key_lt (region_options t) /\
  StronglySorted key_lt (category_options t) /\
  (forall k, In k (region_options t) <-> exists r, In r t /\ Region r = k) /\
  (forall k, In k (category_options t) <->
             exists r, In r t /\ Category r = k) /\
  (forall w, default_widgets t = Some w ->
             Permutation (sel_regions w) (region_options t) /\
             Permutation (sel_categories w) (category_options t)).
Proof.
  unfold region_options, category_options, sorted.
  fold (Pd.group_keys (Pd.col Region t)).
  fold (Pd.group_keys (Pd.col Category t)).
  split; [apply group_keys_ascending|].
  split; [apply group_keys_ascending|].
  split; [intros k; apply group_keys_cover|].
  split; [intros k; apply group_keys_cover|].
  intros w Hw.
  destruct (default_widgets_inv t w Hw) as [lo [top [_ [_ ->]]]]. simpl.
  unfold Pd.group_keys.
  split; symmetry; apply sort_perm.
Qed.

Lemma multiselect_options_witness :
  exists w,
    default_widgets scenario = Some w /\
    Permutation (sel_regions w) (region_options scenario) /\
    Permutation (sel_categories w) (category_options scenario).
Proof.
  eexists. split; [reflexivity|].
  apply (proj2 (proj2 (proj2 (proj2 (multiselect_options scenario))))).
  reflexivity.
Defined.

(** ** Growth of a view *)

Lemma NoDup_all_equal (l : list string) :
  NoDup l -> (forall x y, In x l -> In y l -> x = y) ->
  (List.length l <= 1)%nat.
Proof.
  intros Hnd Heq. destruct l as [|a [|b l]]; simpl; try lia.
  exfalso. inversion Hnd as [|? ? Hnotin _]; subst.
  apply Hnotin. left. apply Heq; [right; now left | now left].
Qed.

(** X24.  A view whose records all fall in one month has no growth figure:
    the monthly series has at most one entry and the metric shows "N/A". *)
Theorem single_month_no_growth (view : DataFrame) :
  (forall r r', In r view -> In r' view -> order_month r = order_month r') ->
  exists v,
    mom_growth (monthly_sales view) = Ok v /\
    growth_not_available v = true.
Proof.
  intros Hone. exists Np.nan. split; [| reflexivity].
  assert (Hlen : (List.length (monthly_sales view) <= 1)%nat).
  { rewrite <- (length_map fst).
    unfold monthly_sales, Pd.sort_index.
    rewrite (Permutation_length
               (Permutation_map fst (sort_perm _ _))).
    rewrite groupby_sum_keys.
    apply NoDup_all_equal; [apply group_keys_NoDup|].
    intros x y Hx Hy.
    apply group_keys_cover in Hx, Hy.
    destruct Hx as [r [Hr <-]]. destruct Hy as [r' [Hr' <-]].
    now apply Hone. }
  unfold mom_growth.
  replace (2 <=? List.length (monthly_sales view))%nat with false;
    [reflexivity|].
  symmetry. apply Nat.leb_gt. lia.
Qed.

Lemma single_month_no_growth_witness :
  exists v,
    mom_growth (monthly_sales tie_view) = Ok v /\
    growth_not_available v = true.
Proof.
  apply single_month_no_growth.
  intros r r' [<- | [<- | []]] [<- | [<- | []]]; reflexivity.
Defined.
